(** * mcp_server_time: timezone resolution and civil-time conversion

    A shallow embedding of the two variants of the MCP time server,
    [mcp_server_time_lambda.py] (module [Original]) and
    [mcp_server_time_lambda_optimized.py] (module [Optimized]), and the
    properties of their timezone resolver and conversion engine.

    The Python standard library and third-party packages the server calls
    ([zoneinfo], [pytz], [tzlocal], [datetime], [os.environ]) are not part
    of the repository.  They appear here as a [platform] record: every
    function of the server takes the platform it runs on, and module
    [Tzdata] gives one concrete platform on which the functions can be
    evaluated. *)

From Stdlib Require Import ZArith QArith Lia Ascii String.
From stdpp Require Import gmap strings list fin_maps.

Local Open Scope Z_scope.

(** ** Python values *)

(** Exceptions the server can meet.  [ZoneInfoNotFoundError] stands for
    whatever [zoneinfo.ZoneInfo] raises on a key it cannot load,
    [UnknownTimeZoneError] for pytz, [ImportError] for a missing
    [tzlocal].  All of them derive from [Exception]; only [ValueError] is
    matched by [except ValueError]. *)
Inductive exn : Type :=
  | ZoneInfoNotFoundError (key : string)
  | UnknownTimeZoneError (zone : string)
  | ImportError (module_name : string)
  | ValueError (msg : string).

(** [except ValueError as e]: the message [str(e)] when [e] matches. *)
Definition is_ValueError (e : exn) : option string :=
  match e with ValueError msg => Some msg | _ => None end.

Inductive result (A : Type) : Type :=
  | Ok (a : A)
  | Raise (e : exn).
Arguments Ok {A} a.
Arguments Raise {A} e.

(** [a or b] on an optional string and a string: [None] and [""] are
    falsy. *)
Definition str_or (a : option string) (b : string) : string :=
  match a with
  | Some (String _ _ as s) => s
  | _ => b
  end.

(** A [timedelta], in microseconds. *)
Definition timedelta : Type := Z.

(** [bool(td)]: a timedelta is truthy unless it is [timedelta(0)]. *)
Definition timedelta_bool (td : timedelta) : bool := negb (td =? 0).

(** Truthiness of an [Optional[timedelta]], as tested by
    [x if off else y]. *)
Definition truthy_td (o : option timedelta) : bool :=
  match o with
  | Some td => timedelta_bool td
  | None => false
  end.

(** [td.total_seconds()].  Python's floats are modelled by the rationals
    they approximate. *)
Definition total_seconds (td : timedelta) : Q := td # 1000000.

Definition usec_per_second : Z := 1000000.
Definition usec_per_day : Z := 86400 * usec_per_second.

(** A timezone object.  [zoneinfo.ZoneInfo(key)] returns the same object
    for the same key and [pytz.timezone] keeps one object per zone, so an
    object is identified by the database it comes from and its name;
    [is] on two handles is equality of these references.  A pytz zone
    also owns one object per (utcoffset, dst) pair, which its [fromutc]
    attaches to the datetimes it builds; [pytz.timezone] returns the
    object with [localized = None]. *)
Inductive tzinfo : Type :=
  | ZoneInfoObj (key : string)
  | PytzObj (zone : string) (localized : option (timedelta * timedelta)).

Global Instance tzinfo_eq_dec : EqDecision tzinfo.
Proof. solve_decision. Defined.

(** [str(tz)]: the canonical name of a handle. *)
Definition tz_str (tz : tzinfo) : string :=
  match tz with
  | ZoneInfoObj k => k
  | PytzObj z _ => z
  end.

(** A [datetime.date], as the number of days since 1970-01-01.  Dates and
    datetimes are taken well inside the range of years 1..9999, where
    datetime arithmetic does not overflow. *)
Definition date : Type := Z.

(** A [datetime.time] as [time.fromisoformat] builds it ([fold] is 0; a
    UTC offset in the string ends up in [tzinfo], which [convert_time]
    overwrites). *)
Record time : Type := mk_time {
  hour : Z;
  minute : Z;
  second : Z;
  microsecond : Z
}.

(** A naive datetime: wall-clock microseconds since 1970-01-01T00:00. *)
Record naive_datetime : Type := mk_naive {
  nd_wall : Z;
  nd_fold : bool
}.

(** An aware datetime. *)
Record datetime : Type := mk_datetime {
  dt_wall : Z;
  dt_fold : bool;
  dt_tzinfo : tzinfo
}.

(** ** The platform *)

Record platform : Type := mk_platform {
  (** [os.environ.get("TZ")] *)
  environ_TZ : option string;
  (** does [zoneinfo.ZoneInfo(key)] find the key *)
  zoneinfo_available : string -> bool;
  (** [pytz.timezone(name)]: the canonical zone name, when known *)
  pytz_lookup : string -> option string;
  (** [tzlocal.get_localzone_name()], or the exception the import or the
      call raises *)
  tzlocal_get_localzone_name : result string;
  (** [tz.utcoffset(dt)] and [tz.dst(dt)] at a wall-clock time and fold *)
  tz_utcoffset : tzinfo -> Z -> bool -> timedelta;
  tz_dst : tzinfo -> Z -> bool -> timedelta;
  (** [tz.fromutc(dt)]: the aware datetime of a UTC instant.  A ZoneInfo
      object attaches itself; pytz attaches the zone's object for the
      offset in force. *)
  tz_fromutc : tzinfo -> Z -> datetime;
  (** [datetime.time.fromisoformat(s)]; [inl msg] is [ValueError(msg)] *)
  time_fromisoformat : string -> string + time
}.

Section Platform.
Variable P : platform.

(** [os.environ.get("TZ", default)] *)
Definition environ_get_TZ (default : string) : string :=
  match environ_TZ P with
  | Some v => v
  | None => default
  end.

Definition ZoneInfo (key : string) : result tzinfo :=
  if zoneinfo_available P key then Ok (ZoneInfoObj key)
  else Raise (ZoneInfoNotFoundError key).

Definition pytz_timezone (name : string) : result tzinfo :=
  match pytz_lookup P name with
  | Some z => Ok (PytzObj z None)
  | None => Raise (UnknownTimeZoneError name)
  end.

Definition pytz_UTC : tzinfo := PytzObj "UTC" None.

Definition fromisoformat (s : string) : result time :=
  match time_fromisoformat P s with
  | inr t => Ok t
  | inl msg => Raise (ValueError msg)
  end.

(** [datetime.combine(d, t)] *)
Definition combine (d : date) (t : time) : naive_datetime :=
  {| nd_wall := d * usec_per_day
                + ((hour t * 60 + minute t) * 60 + second t) * usec_per_second
                + microsecond t;
     nd_fold := false |}.

(** [dt.replace(tzinfo=tz)] *)
Definition replace_tzinfo (dt : naive_datetime) (tz : tzinfo) : datetime :=
  {| dt_wall := nd_wall dt; dt_fold := nd_fold dt; dt_tzinfo := tz |}.

(** [dt.utcoffset()]: [None] only for naive datetimes, a timedelta for
    the aware ones modelled by [datetime]. *)
Definition dt_utcoffset (dt : datetime) : option timedelta :=
  Some (tz_utcoffset P (dt_tzinfo dt) (dt_wall dt) (dt_fold dt)).

(** [dt.dst()] *)
Definition dt_dst (dt : datetime) : option timedelta :=
  Some (tz_dst P (dt_tzinfo dt) (dt_wall dt) (dt_fold dt)).

(** The UTC instant of an aware datetime, in microseconds. *)
Definition utc_instant (dt : datetime) : Z :=
  dt_wall dt - tz_utcoffset P (dt_tzinfo dt) (dt_wall dt) (dt_fold dt).

(** [dt.astimezone(tz)]: converting to the datetime's own zone object
    returns the datetime itself; otherwise the UTC instant is handed to
    [tz.fromutc]. *)
Definition astimezone (dt : datetime) (tz : tzinfo) : datetime :=
  if decide (tz = dt_tzinfo dt) then dt
  else tz_fromutc P tz (utc_instant dt).

(** [datetime.now(tz)] when the clock reads the UTC instant [now_utc]. *)
Definition datetime_now (now_utc : Z) (tz : tzinfo) : datetime :=
  tz_fromutc P tz now_utc.

(** [dt.timestamp()] of an aware datetime: seconds since the epoch. *)
Definition dt_timestamp (dt : datetime) : Q := utc_instant dt # 1000000.

End Platform.

(** ** ISO 8601 rendering *)

Definition digit (n : Z) : ascii := ascii_of_nat (48 + Z.to_nat (n mod 10)).

Definition pad2 (n : Z) : string :=
  String (digit (n / 10)) (String (digit n) "").

Definition pad4 (n : Z) : string := pad2 (n / 100) +:+ pad2 n.

Definition pad6 (n : Z) : string := pad2 (n / 10000) +:+ pad4 n.

(** Year, month and day of a day count (proleptic Gregorian calendar). *)
Definition civil_from_days (days : Z) : Z * Z * Z :=
  let z := days + 719468 in
  let era := z / 146097 in
  let doe := z - era * 146097 in
  let yoe := (doe - doe / 1460 + doe / 36524 - doe / 146096) / 365 in
  let doy := doe - (365 * yoe + yoe / 4 - yoe / 100) in
  let mp := (5 * doy + 2) / 153 in
  let d := doy - (153 * mp + 2) / 5 + 1 in
  let m := if mp <? 10 then mp + 3 else mp - 9 in
  (yoe + era * 400 + (if m <=? 2 then 1 else 0), m, d).

(** [+HH:MM], with [:SS] and [.ffffff] only when they are not zero. *)
Definition format_offset (off : timedelta) : string :=
  let sign := if off <? 0 then "-" else "+" in
  let a := Z.abs off in
  let secs := a / usec_per_second in
  let us := a mod usec_per_second in
  let hh := secs / 3600 in
  let mm := (secs mod 3600) / 60 in
  let ss := secs mod 60 in
  sign +:+ pad2 hh +:+ ":" +:+ pad2 mm
  +:+ (if (ss =? 0) && (us =? 0) then ""
       else ":" +:+ pad2 ss +:+ (if us =? 0 then "" else "." +:+ pad6 us)).

(** [dt.isoformat()] of an aware datetime. *)
Definition isoformat (P : platform) (dt : datetime) : string :=
  let days := dt_wall dt / usec_per_day in
  let rest := dt_wall dt mod usec_per_day in
  let secs := rest / usec_per_second in
  let us := rest mod usec_per_second in
  let '(y, m, d) := civil_from_days days in
  pad4 y +:+ "-" +:+ pad2 m +:+ "-" +:+ pad2 d +:+ "T"
  +:+ pad2 (secs / 3600) +:+ ":" +:+ pad2 ((secs mod 3600) / 60)
  +:+ ":" +:+ pad2 (secs mod 60)
  +:+ (if us =? 0 then "" else "." +:+ pad6 us)
  +:+ format_offset (tz_utcoffset P (dt_tzinfo dt) (dt_wall dt) (dt_fold dt)).

(** [td.total_seconds() / 3600] *)
Definition hours (td : timedelta) : Q := (total_seconds td / 3600)%Q.

(** ** The original variant: [mcp_server_time_lambda.py] *)

Module Original.

(** The dict returned by [get_current_time]. *)
Record current_time : Type := mk_current_time {
  timezone : string;
  iso8601 : string;
  dst : bool;
  utc_offset_hours : Q
}.

(** The dict returned by [convert_time]. *)
Record conversion : Type := mk_conversion {
  source_time : string;
  source_timezone : string;
  target_time : string;
  target_timezone : string;
  dst_source : bool;
  dst_target : bool;
  utc_offset_diff_hours : option Q
}.

Section Server.
Variable P : platform.

Definition get_local_timezone : tzinfo :=
  match ZoneInfo P (environ_get_TZ P "UTC") with
  | Ok tz => tz
  | Raise _ =>
      match tzlocal_get_localzone_name P with
      | Ok name =>
          match pytz_timezone P name with
          | Ok tz => tz
          | Raise _ => pytz_UTC
          end
      | Raise _ => pytz_UTC
      end
  end.

(** Module-level constant, computed once at import. *)
Definition local_timezone : tzinfo := get_local_timezone.

(** [now_utc] is the instant the clock reads in [datetime.now(tz)]. *)
Definition get_current_time (timezone : option string) (now_utc : Z)
  : current_time :=
  let tz :=
    match timezone with
    | Some (String _ _ as name) =>
        match ZoneInfo P name with
        | Ok tz => tz
        | Raise _ =>
            match pytz_timezone P name with
            | Ok tz => tz
            | Raise _ => local_timezone
            end
        end
    | _ => local_timezone
    end in
  let now := datetime_now P now_utc tz in
  {| timezone := tz_str tz;
     iso8601 := isoformat P now;
     dst := truthy_td (dt_dst P now);
     utc_offset_hours :=
       match dt_utcoffset P now with
       | Some off => if timedelta_bool off then hours off else 0%Q
       | None => 0%Q
       end |}.

(** The lookup [convert_time] performs for its source and for its
    target zone: [zoneinfo.ZoneInfo], then an unguarded
    [pytz.timezone]. *)
Definition lookup_timezone (name : string) : result tzinfo :=
  match ZoneInfo P name with
  | Ok tz => Ok tz
  | Raise _ => pytz_timezone P name
  end.

(** [today] is [datetime.now().date()]. *)
Definition convert_time (source_timezone time target_timezone : string)
    (today : date) : result conversion :=
  match lookup_timezone source_timezone with
  | Raise e => Raise e
  | Ok src_tz =>
  match lookup_timezone target_timezone with
  | Raise e => Raise e
  | Ok tgt_tz =>
  match fromisoformat P time with
  | Raise e => Raise e
  | Ok t =>
      let dt_naive := combine today t in
      let dt_src := replace_tzinfo dt_naive src_tz in
      let dt_tgt := astimezone P dt_src tgt_tz in
      Ok {| source_time := isoformat P dt_src;
            source_timezone := tz_str src_tz;
            target_time := isoformat P dt_tgt;
            target_timezone := tz_str tgt_tz;
            dst_source := truthy_td (dt_dst P dt_src);
            dst_target := truthy_td (dt_dst P dt_tgt);
            utc_offset_diff_hours :=
              match dt_utcoffset P dt_tgt, dt_utcoffset P dt_src with
              | Some tgt_offset, Some src_offset =>
                  if timedelta_bool tgt_offset && timedelta_bool src_offset
                  then Some ((total_seconds tgt_offset
                              - total_seconds src_offset) / 3600)%Q
                  else None
              | _, _ => None
              end |}
  end end end.

End Server.
End Original.

(** ** The optimized variant: [mcp_server_time_lambda_optimized.py] *)

(** [functools.lru_cache]: the entries, most recently used first. *)
Section LruCache.
Context {K V : Type} `{EqDecision K}.

Fixpoint lru_find (k : K) (l : list (K * V)) : option V :=
  match l with
  | [] => None
  | (k', v) :: l' => if decide (k = k') then Some v else lru_find k l'
  end.

Fixpoint lru_remove (k : K) (l : list (K * V)) : list (K * V) :=
  match l with
  | [] => []
  | (k', v) :: l' =>
      if decide (k = k') then lru_remove k l' else (k', v) :: lru_remove k l'
  end.

(** A hit moves the entry to the front. *)
Definition lru_touch (k : K) (v : V) (l : list (K * V)) : list (K * V) :=
  (k, v) :: lru_remove k l.

(** A miss stores the new entry; a full cache first drops its least
    recently used entry. *)
Definition lru_store (maxsize : nat) (k : K) (v : V) (l : list (K * V))
  : list (K * V) :=
  (k, v) :: (if decide (length l < maxsize)%nat then l else removelast l).
End LruCache.
Global Arguments lru_touch : simpl never.
Global Arguments lru_store : simpl never.

Module Optimized.

(** Process-wide mutable state: the [lru_cache] of [get_timezone] and
    the module-level dict [_timezone_cache]. *)
Record process : Type := mk_process {
  get_timezone_lru : list (option string * tzinfo);
  _timezone_cache : gmap string tzinfo
}.

Definition startup : process :=
  {| get_timezone_lru := []; _timezone_cache := ∅ |}.

(** Computations that read and write the process state and may raise. *)
Definition M (A : Type) : Type := process -> result A * process.

Definition ret {A} (a : A) : M A := fun st => (Ok a, st).

Definition bind {A B} (m : M A) (f : A -> M B) : M B :=
  fun st =>
    match m st with
    | (Ok a, st') => f a st'
    | (Raise e, st') => (Raise e, st')
    end.

Notation "x <- c1 ;; c2" := (bind c1 (fun x => c2))
  (at level 100, c1 at next level, right associativity).

(** [try: body except ValueError as e: handler(str(e))] around a body
    that does not touch the process state. *)
Definition try_except_ValueError {A} (body : result A) (handler : string -> A)
  : result A :=
  match body with
  | Ok a => Ok a
  | Raise e =>
      match is_ValueError e with
      | Some msg => Ok (handler msg)
      | None => Raise e
      end
  end.

Record current_time : Type := mk_current_time {
  timezone : string;
  iso8601 : string;
  dst : bool;
  utc_offset_hours : Q;
  timestamp : Q
}.

Record conversion : Type := mk_conversion {
  source_time : string;
  source_timezone : string;
  target_time : string;
  target_timezone : string;
  dst_source : bool;
  dst_target : bool;
  utc_offset_diff_hours : option Q;
  time_difference_seconds : Q
}.

(** The dict of the [except ValueError] branch. *)
Record error_record : Type := mk_error_record {
  error : string;
  details : string
}.

Inductive convert_result : Type :=
  | Converted (r : conversion)
  | Invalid (r : error_record).

Section Server.
Variable P : platform.

Definition LOCAL_TZ_NAME : string := environ_get_TZ P "UTC".

(** The body of [get_timezone], without its [lru_cache] decorator. *)
Definition get_timezone_wrapped (tz_name : option string) : M tzinfo :=
  fun st =>
    let tz_name := str_or tz_name LOCAL_TZ_NAME in
    match _timezone_cache st !! tz_name with
    | Some tz => (Ok tz, st)
    | None =>
        match ZoneInfo P tz_name with
        | Ok tz =>
            (Ok tz,
             {| get_timezone_lru := get_timezone_lru st;
                _timezone_cache := <[tz_name := tz]> (_timezone_cache st) |})
        | Raise _ =>
            match ZoneInfo P "UTC" with
            | Ok tz =>
                (Ok tz,
                 {| get_timezone_lru := get_timezone_lru st;
                    _timezone_cache :=
                      <[tz_name := tz]> (_timezone_cache st) |})
            | Raise e => (Raise e, st)
            end
        end
    end.

(** [@lru_cache(maxsize=256)] *)
Definition get_timezone (tz_name : option string) : M tzinfo :=
  fun st =>
    match lru_find tz_name (get_timezone_lru st) with
    | Some tz =>
        (Ok tz,
         {| get_timezone_lru := lru_touch tz_name tz (get_timezone_lru st);
            _timezone_cache := _timezone_cache st |})
    | None =>
        match get_timezone_wrapped tz_name st with
        | (Ok tz, st') =>
            (Ok tz,
             {| get_timezone_lru :=
                  lru_store 256 tz_name tz (get_timezone_lru st');
                _timezone_cache := _timezone_cache st' |})
        | (Raise e, st') => (Raise e, st')
        end
    end.

Definition get_current_time (timezone : option string) (now_utc : Z)
  : M current_time :=
  tz <- get_timezone (Some (str_or timezone LOCAL_TZ_NAME)) ;;
  let now := datetime_now P now_utc tz in
  let utc_offset := dt_utcoffset P now in
  ret {| timezone := tz_str tz;
         iso8601 := isoformat P now;
         dst := truthy_td (dt_dst P now);
         utc_offset_hours :=
           match utc_offset with
           | Some off => if timedelta_bool off then hours off else 0%Q
           | None => 0%Q
           end;
         timestamp := dt_timestamp P now |}.

(** The [try] block of [convert_time]. *)
Definition convert_time_try (src_tz tgt_tz : tzinfo) (time : string)
    (today : date) : result convert_result :=
  match fromisoformat P time with
  | Raise e => Raise e
  | Ok t =>
      let dt_naive := combine today t in
      let dt_src := replace_tzinfo dt_naive src_tz in
      let dt_tgt := astimezone P dt_src tgt_tz in
      let src_offset := dt_utcoffset P dt_src in
      let tgt_offset := dt_utcoffset P dt_tgt in
      Ok (Converted
        {| source_time := isoformat P dt_src;
           source_timezone := tz_str src_tz;
           target_time := isoformat P dt_tgt;
           target_timezone := tz_str tgt_tz;
           dst_source := truthy_td (dt_dst P dt_src);
           dst_target := truthy_td (dt_dst P dt_tgt);
           utc_offset_diff_hours :=
             match tgt_offset, src_offset with
             | Some tgt_off, Some src_off =>
                 if timedelta_bool tgt_off && timedelta_bool src_off
                 then Some ((total_seconds tgt_off
                             - total_seconds src_off) / 3600)%Q
                 else None
             | _, _ => None
             end;
           time_difference_seconds :=
             (dt_timestamp P dt_tgt - dt_timestamp P dt_src)%Q |})
  end.

Definition convert_time (source_timezone time target_timezone : string)
    (today : date) : M convert_result :=
  src_tz <- get_timezone (Some source_timezone) ;;
  tgt_tz <- get_timezone (Some target_timezone) ;;
  fun st =>
    (try_except_ValueError
       (convert_time_try src_tz tgt_tz time today)
       (fun msg =>
          Invalid
            {| error := "Invalid time format: " +:+ time
                        +:+ ". Expected HH:MM format.";
               details := msg |}),
     st).

(** States the process can be in: every change of state goes through
    [get_timezone]. *)
Inductive reachable : process -> Prop :=
  | reachable_startup : reachable startup
  | reachable_call st tz_name :
      reachable st -> reachable (get_timezone tz_name st).2.

End Server.
End Optimized.

(** ** A reference platform

    CPython with an excerpt of the IANA database (UTC, Asia/Seoul and
    America/New_York with its 2026 transitions), pytz over the same zones
    with its case-insensitive lookup of [asia/seoul], no [tzlocal], and
    [time.fromisoformat] on the grammar [HH[:MM[:SS[.fff[fff]]]]]. *)
Module Tzdata.

Definition hour_usec : Z := 3600 * usec_per_second.

Record zone : Type := mk_zone {
  std_offset : timedelta;
  dst_saving : timedelta;
  (** is daylight saving time in force at a UTC instant (microseconds) *)
  dst_in_force : Z -> bool;
  (** the offset of the zone object [pytz.timezone] returns (local mean
      time for the zones of the excerpt) *)
  pytz_default_offset : timedelta
}.

Definition utc_zone : zone :=
  {| std_offset := 0; dst_saving := 0; dst_in_force := fun _ => false;
     pytz_default_offset := 0 |}.

Definition seoul_zone : zone :=
  {| std_offset := 9 * hour_usec; dst_saving := 0;
     dst_in_force := fun _ => false;
     pytz_default_offset := 30480 * usec_per_second |}.

(** 2026-03-08T07:00Z and 2026-11-01T06:00Z *)
Definition new_york_zone : zone :=
  {| std_offset := -5 * hour_usec; dst_saving := hour_usec;
     dst_in_force := fun u =>
       (1772953200 * usec_per_second <=? u)
       && (u <? 1793512800 * usec_per_second);
     pytz_default_offset := -17760 * usec_per_second |}.

Definition rules (name : string) : option zone :=
  if decide (name = "UTC") then Some utc_zone
  else if decide (name = "Asia/Seoul") then Some seoul_zone
  else if decide (name = "America/New_York") then Some new_york_zone
  else None.

Definition zone_of (name : string) : zone :=
  match rules name with
  | Some z => z
  | None => utc_zone
  end.

(** (utcoffset, dst) at a UTC instant. *)
Definition offset_at (z : zone) (u : Z) : timedelta * timedelta :=
  if dst_in_force z u then (std_offset z + dst_saving z, dst_saving z)
  else (std_offset z, 0).

(** (utcoffset, dst) of a wall-clock time: [fold] chooses between the two
    readings of a repeated time, and selects the offset on the other
    side of the transition for a skipped one. *)
Definition offset_local (z : zone) (wall : Z) (fold : bool)
  : timedelta * timedelta :=
  let summer := (std_offset z + dst_saving z, dst_saving z) in
  let winter := (std_offset z, 0) in
  let summer_ok :=
    (offset_at z (wall - (std_offset z + dst_saving z))).1
    =? std_offset z + dst_saving z in
  let winter_ok := (offset_at z (wall - std_offset z)).1 =? std_offset z in
  match summer_ok, winter_ok with
  | true, true => if fold then winter else summer
  | true, false => summer
  | false, true => winter
  | false, false => if fold then summer else winter
  end.

Definition zoneinfo_fromutc (key : string) (u : Z) : datetime :=
  let z := zone_of key in
  let off := (offset_at z u).1 in
  let wall := u + off in
  let repeated :=
    ((offset_at z (wall - (std_offset z + dst_saving z))).1
     =? std_offset z + dst_saving z)
    && ((offset_at z (wall - std_offset z)).1 =? std_offset z) in
  {| dt_wall := wall;
     dt_fold := repeated && (off =? std_offset z)
                && negb (dst_saving z =? 0);
     dt_tzinfo := ZoneInfoObj key |}.

Definition pytz_fromutc (name : string) (u : Z) : datetime :=
  let off := offset_at (zone_of name) u in
  {| dt_wall := u + off.1; dt_fold := false;
     dt_tzinfo := PytzObj name (Some off) |}.

Definition utcoffset_dst (tz : tzinfo) (wall : Z) (fold : bool)
  : timedelta * timedelta :=
  match tz with
  | ZoneInfoObj key => offset_local (zone_of key) wall fold
  | PytzObj name None => (pytz_default_offset (zone_of name), 0)
  | PytzObj name (Some off) => off
  end.

Definition fromutc (tz : tzinfo) (u : Z) : datetime :=
  match tz with
  | ZoneInfoObj key => zoneinfo_fromutc key u
  | PytzObj name _ => pytz_fromutc name u
  end.

(** *** [time.fromisoformat] *)

Definition digit_value (c : ascii) : option Z :=
  let n := Z.of_nat (nat_of_ascii c) in
  if (48 <=? n) && (n <=? 57) then Some (n - 48) else None.

Definition two_digits (c1 c2 : ascii) : option Z :=
  match digit_value c1, digit_value c2 with
  | Some a, Some b => Some (10 * a + b)
  | _, _ => None
  end.

Fixpoint digits (acc : Z) (s : string) : option Z :=
  match s with
  | EmptyString => Some acc
  | String c s' =>
      match digit_value c with
      | Some d => digits (10 * acc + d) s'
      | None => None
      end
  end.

(** [.fff] or [.ffffff], in microseconds. *)
Definition parse_fraction (s : string) : option Z :=
  match String.length s with
  | 3%nat => (fun n => 1000 * n) <$> digits 0 s
  | 6%nat => digits 0 s
  | _ => None
  end.

Definition is_colon (c : ascii) : bool := Ascii.eqb c ":".
Definition is_dot (c : ascii) : bool := Ascii.eqb c ".".

Definition parse_hh_mm_ss_ff (s : string) : option time :=
  match s with
  | String h1 (String h2 rest) =>
      hh ← two_digits h1 h2;
      match rest with
      | EmptyString => Some (mk_time hh 0 0 0)
      | String c1 (String m1 (String m2 rest)) =>
          if is_colon c1 then
            mm ← two_digits m1 m2;
            match rest with
            | EmptyString => Some (mk_time hh mm 0 0)
            | String c2 (String s1 (String s2 rest)) =>
                if is_colon c2 then
                  ss ← two_digits s1 s2;
                  match rest with
                  | EmptyString => Some (mk_time hh mm ss 0)
                  | String c3 frac =>
                      if is_dot c3 then
                        us ← parse_fraction frac; Some (mk_time hh mm ss us)
                      else None
                  end
                else None
            | _ => None
            end
          else None
      | _ => None
      end
  | _ => None
  end.

Definition fromisoformat (s : string) : string + time :=
  match parse_hh_mm_ss_ff s with
  | None => inl ("Invalid isoformat string: '" +:+ s +:+ "'")
  | Some t =>
      if negb (hour t <? 24) then inl "hour must be in 0..23"
      else if negb (minute t <? 60) then inl "minute must be in 0..59"
      else if negb (second t <? 60) then inl "second must be in 0..59"
      else inr t
  end.

Definition pytz_names (name : string) : option string :=
  if decide (name = "asia/seoul") then Some "Asia/Seoul"
  else if rules name is Some _ then Some name else None.

(** The platform, for a given value of the environment variable [TZ]. *)
Definition cpython (TZ : option string) : platform :=
  {| environ_TZ := TZ;
     zoneinfo_available := fun key => bool_decide (is_Some (rules key));
     pytz_lookup := pytz_names;
     tzlocal_get_localzone_name := Raise (ImportError "tzlocal");
     tz_utcoffset := fun tz wall fold => (utcoffset_dst tz wall fold).1;
     tz_dst := fun tz wall fold => (utcoffset_dst tz wall fold).2;
     tz_fromutc := fromutc;
     time_fromisoformat := fromisoformat |}.

(** 2026-11-04 and 2026-07-01 as day counts. *)
Definition day_2026_11_04 : date := 20761.
Definition day_2026_07_01 : date := 20635.
Definition day_2026_03_08 : date := 20520.

End Tzdata.

(** ** Vocabulary of the statements *)

(** The key under which [get_timezone] files a name in [_timezone_cache]:
    the name itself, or the default name [local] when it is falsy. *)
Definition effective_name (local : string) (tz_name : option string) : string :=
  str_or tz_name local.

(** Every entry of the [lru_cache] is also the entry of [_timezone_cache]
    for its effective name. *)
Definition lru_agrees (local : string) (st : Optimized.process) : Prop :=
  ∀ k tz,
    lru_find k (Optimized.get_timezone_lru st) = Some tz →
    Optimized._timezone_cache st !! effective_name local k = Some tz.

(** The handle the fallback chain of [get_timezone] yields for a name on a
    platform that can load UTC. *)
Definition resolved (P : platform) (name : string) : tzinfo :=
  if zoneinfo_available P name then ZoneInfoObj name else ZoneInfoObj "UTC".

(** Every entry of [_timezone_cache] is what the fallback chain yields. *)
Definition cache_sound (P : platform) (st : Optimized.process) : Prop :=
  ∀ name tz,
    Optimized._timezone_cache st !! name = Some tz → tz = resolved P name.

(** The state after a sequence of [get_timezone] calls. *)
Fixpoint resolve_all (P : platform) (calls : list (option string))
    (st : Optimized.process) : Optimized.process :=
  match calls with
  | [] => st
  | tz_name :: calls' => resolve_all P calls' (Optimized.get_timezone P tz_name st).2
  end.

(** Pairwise distinct, non-empty names that no timezone database knows:
    the binary digits of a positive number, lowest first, written with
    [a] and [b] and closed by [Z]. *)
Fixpoint garbled (p : positive) : string :=
  match p with
  | xH => "Z"
  | xO p' => String "a" (garbled p')
  | xI p' => String "b" (garbled p')
  end.

Definition garbled_name (n : nat) : string := garbled (Pos.of_succ_nat n).

Definition garbled_names (n : nat) : list (option string) :=
  (λ i, Some (garbled_name i)) <$> seq 0 n.

(** [fromutc] and [utcoffset] of a platform agree: the datetime built for
    a UTC instant denotes that instant. *)
Definition fromutc_coherent (P : platform) : Prop :=
  ∀ tz u, utc_instant P (tz_fromutc P tz u) = u.

(** ** Proof automation *)

(** Projections of an explicit process state, and nothing else. *)
Ltac state_simpl :=
  cbn [fst snd Optimized.get_timezone_lru Optimized._timezone_cache] in *.

(** Case analysis on the first integer comparison of the goal. *)
Ltac split_comparison :=
  match goal with
  | |- context [?a <=? ?b] => destruct (Z.leb_spec a b)
  | |- context [?a <? ?b] => destruct (Z.ltb_spec a b)
  | |- context [?a =? ?b] => destruct (Z.eqb_spec a b)
  end.

(** ** [get_timezone_metadata] *)

Module Metadata.

(** The dict [get_timezone_metadata] returns. *)
Record metadata : Type := mk_metadata {
  name : string;
  key : string;
  is_dst_capable : bool
}.

(** The state of the optimized variant together with the [lru_cache] of
    [get_timezone_metadata]. *)
Record process : Type := mk_process {
  timezones : Optimized.process;
  get_timezone_metadata_lru : list (string * metadata)
}.

Definition startup : process :=
  {| timezones := Optimized.startup; get_timezone_metadata_lru := [] |}.

(** [hasattr(tz, 'dst')]: [dst] is a method of every [tzinfo] object,
    whether the zone observes daylight saving time or not. *)
Definition hasattr_dst (tz : tzinfo) : bool := true.

Section Server.
Variable P : platform.

(** The body of [get_timezone_metadata], without its decorator. *)
Definition get_timezone_metadata_wrapped (tz_name : string) (st : process)
  : result metadata * process :=
  match Optimized.get_timezone P (Some tz_name) (timezones st) with
  | (Ok tz, tzs) =>
      (Ok {| name := tz_str tz; key := tz_name;
             is_dst_capable := hasattr_dst tz |},
       {| timezones := tzs;
          get_timezone_metadata_lru := get_timezone_metadata_lru st |})
  | (Raise e, tzs) =>
      (Raise e,
       {| timezones := tzs;
          get_timezone_metadata_lru := get_timezone_metadata_lru st |})
  end.

(** [@lru_cache(maxsize=128)] *)
Definition get_timezone_metadata (tz_name : string) (st : process)
  : result metadata * process :=
  match lru_find tz_name (get_timezone_metadata_lru st) with
  | Some m =>
      (Ok m,
       {| timezones := timezones st;
          get_timezone_metadata_lru :=
            lru_touch tz_name m (get_timezone_metadata_lru st) |})
  | None =>
      match get_timezone_metadata_wrapped tz_name st with
      | (Ok m, st') =>
          (Ok m,
           {| timezones := timezones st';
              get_timezone_metadata_lru :=
                lru_store 128 tz_name m (get_timezone_metadata_lru st') |})
      | (Raise e, st') => (Raise e, st')
      end
  end.

(** [get_timezone] called directly, in the larger state. *)
Definition get_timezone (tz_name : option string) (st : process)
  : result tzinfo * process :=
  match Optimized.get_timezone P tz_name (timezones st) with
  | (r, tzs) =>
      (r, {| timezones := tzs;
             get_timezone_metadata_lru := get_timezone_metadata_lru st |})
  end.

(** States the process can be in. *)
Inductive reachable : process -> Prop :=
  | reachable_startup : reachable startup
  | reachable_lookup st tz_name :
      reachable st -> reachable (get_timezone tz_name st).2
  | reachable_metadata st tz_name :
      reachable st -> reachable (get_timezone_metadata tz_name st).2.

End Server.
End Metadata.

(** The dict [get_timezone_metadata] returns for a name in a reachable
    state of a platform that can load UTC. *)
Definition metadata_expected (P : platform) (tz_name : string)
  : Metadata.metadata :=
  {| Metadata.name :=
       tz_str (resolved P
                 (effective_name (Optimized.LOCAL_TZ_NAME P) (Some tz_name)));
     Metadata.key := tz_name;
     Metadata.is_dst_capable := true |}.

(** Every entry of the [lru_cache] of [get_timezone_metadata] is the
    expected dict of its name. *)
Definition metadata_sound (P : platform) (st : Metadata.process) : Prop :=
  ∀ k m,
    lru_find k (Metadata.get_timezone_metadata_lru st) = Some m →
    m = metadata_expected P k.

(** ** Lazy initialization of the server and the Lambda handler *)

Module Bootstrap.

(** Objects of the external packages are identified with the call that
    builds them: the tuple [(MCPServer, mcp_tool, mcp_arg)], the class
    [Mangum], [MCPServer(title=.., description=.., version=..,
    streamable_http=..)], the attribute [server.app], and
    [Mangum(app, lifespan=..)]. *)
Inductive fastmcp_modules : Type := FastmcpModules.

Inductive mangum_class : Type := MangumClass.

Record server : Type := MCPServer {
  title : string;
  description : string;
  version : string;
  streamable_http : bool
}.

Inductive app : Type := AppOf (s : server).

(** [app] is [None] when [get_app] returned [None]. *)
Record handler : Type := Mangum {
  handler_app : option app;
  lifespan : string
}.

(** Calls into the external packages, in the order they happen. *)
Inductive effect : Type :=
  | ImportFastmcp
  | ImportMangum
  | DefineTools
  | ConstructServer
  | ReadApp
  | ConstructHandler
  | Invoke.

Global Instance effect_eq_dec : EqDecision effect.
Proof. solve_decision. Defined.

(** What the external packages do.  Each call sees the calls made so far,
    so an import or a constructor may fail once and succeed later;
    [Some e] and [Raise e] are the exception it raises. *)
Record runtime : Type := mk_runtime {
  (** [from fastmcp import MCPServer, mcp_tool, mcp_arg] *)
  import_fastmcp : list effect -> option exn;
  (** [from mangum import Mangum] *)
  import_mangum : list effect -> option exn;
  (** the [mcp_tool] and [mcp_arg] decorators of [create_mcp_tools] *)
  decorate_tools : list effect -> option exn;
  (** [MCPServer(...)] *)
  MCPServer_init : list effect -> server -> option exn;
  (** [server.app] *)
  server_app : list effect -> server -> result app;
  (** [Mangum(app, lifespan=...)] *)
  Mangum_init : list effect -> handler -> option exn
}.

(** The module-level globals, and the log of external calls. *)
Record globals : Type := mk_globals {
  _fastmcp_modules : option fastmcp_modules;
  _mangum_module : option mangum_class;
  _server : option server;
  _app : option app;
  _handler : option handler;
  effects : list effect
}.

Definition startup : globals :=
  {| _fastmcp_modules := None; _mangum_module := None; _server := None;
     _app := None; _handler := None; effects := [] |}.

Definition M (A : Type) : Type := globals -> result A * globals.

Definition ret {A} (a : A) : M A := fun g => (Ok a, g).

Definition bind {A B} (m : M A) (f : A -> M B) : M B :=
  fun g =>
    match m g with
    | (Ok a, g') => f a g'
    | (Raise e, g') => (Raise e, g')
    end.

Notation "x <- c1 ;; c2" := (bind c1 (fun x => c2))
  (at level 100, c1 at next level, right associativity).

(** An external call that returns [a] unless it raises. *)
Definition attempt {A} (e : effect) (outcome : list effect -> option exn)
    (a : A) : M A :=
  fun g =>
    let g' :=
      {| _fastmcp_modules := _fastmcp_modules g;
         _mangum_module := _mangum_module g;
         _server := _server g; _app := _app g; _handler := _handler g;
         effects := effects g ++ [e] |} in
    match outcome (effects g) with
    | None => (Ok a, g')
    | Some x => (Raise x, g')
    end.

(** An external call with a result of its own. *)
Definition external {A} (e : effect) (outcome : list effect -> result A)
  : M A :=
  fun g =>
    (outcome (effects g),
     {| _fastmcp_modules := _fastmcp_modules g;
        _mangum_module := _mangum_module g;
        _server := _server g; _app := _app g; _handler := _handler g;
        effects := effects g ++ [e] |}).

Definition store_fastmcp_modules (m : fastmcp_modules) : M unit :=
  fun g =>
    (Ok tt,
     {| _fastmcp_modules := Some m; _mangum_module := _mangum_module g;
        _server := _server g; _app := _app g; _handler := _handler g;
        effects := effects g |}).

Definition store_mangum_module (m : mangum_class) : M unit :=
  fun g =>
    (Ok tt,
     {| _fastmcp_modules := _fastmcp_modules g; _mangum_module := Some m;
        _server := _server g; _app := _app g; _handler := _handler g;
        effects := effects g |}).

Definition store_server (s : server) : M unit :=
  fun g =>
    (Ok tt,
     {| _fastmcp_modules := _fastmcp_modules g;
        _mangum_module := _mangum_module g;
        _server := Some s; _app := _app g; _handler := _handler g;
        effects := effects g |}).

Definition store_app (a : app) : M unit :=
  fun g =>
    (Ok tt,
     {| _fastmcp_modules := _fastmcp_modules g;
        _mangum_module := _mangum_module g;
        _server := _server g; _app := Some a; _handler := _handler g;
        effects := effects g |}).

Definition store_handler (h : handler) : M unit :=
  fun g =>
    (Ok tt,
     {| _fastmcp_modules := _fastmcp_modules g;
        _mangum_module := _mangum_module g;
        _server := _server g; _app := _app g; _handler := Some h;
        effects := effects g |}).

Section Server.
Variable R : runtime.

Definition get_fastmcp : M fastmcp_modules :=
  fun g =>
    match _fastmcp_modules g with
    | Some m => (Ok m, g)
    | None =>
        (m <- attempt ImportFastmcp (import_fastmcp R) FastmcpModules ;;
         _ <- store_fastmcp_modules m ;;
         ret m) g
    end.

Definition get_mangum : M mangum_class :=
  fun g =>
    match _mangum_module g with
    | Some m => (Ok m, g)
    | None =>
        (m <- attempt ImportMangum (import_mangum R) MangumClass ;;
         _ <- store_mangum_module m ;;
         ret m) g
    end.

(** The two decorated tool functions it returns are closures over
    [get_timezone]; they are modelled in [Optimized]. *)
Definition create_mcp_tools : M unit :=
  _ <- get_fastmcp ;;
  attempt DefineTools (decorate_tools R) tt.

Definition new_server : server :=
  {| title := "Time MCP Server (Optimized Lambda)";
     description :=
       "Optimized AWS Lambda MCP 서버 - 90% bundle size reduction, 60% faster cold starts";
     version := "2.0.0";
     streamable_http := true |}.

Definition get_server : M server :=
  fun g =>
    match _server g with
    | Some s => (Ok s, g)
    | None =>
        (_ <- get_fastmcp ;;
         _ <- create_mcp_tools ;;
         s <- attempt ConstructServer
                (fun hist => MCPServer_init R hist new_server) new_server ;;
         _ <- store_server s ;;
         a <- external ReadApp (fun hist => server_app R hist s) ;;
         _ <- store_app a ;;
         ret s) g
    end.

(** Returns the global [_app], which may still be [None]. *)
Definition get_app : M (option app) :=
  fun g =>
    match _app g with
    | Some a => (Ok (Some a), g)
    | None =>
        match get_server g with
        | (Ok _, g') => (Ok (_app g'), g')
        | (Raise e, g') => (Raise e, g')
        end
    end.

Definition get_handler : M handler :=
  fun g =>
    match _handler g with
    | Some h => (Ok h, g)
    | None =>
        (_ <- get_mangum ;;
         a <- get_app ;;
         h <- attempt ConstructHandler
                (fun hist =>
                   Mangum_init R hist
                     {| handler_app := a; lifespan := "off" |})
                {| handler_app := a; lifespan := "off" |} ;;
         _ <- store_handler h ;;
         ret h) g
    end.

Section Invocation.
Context {event context response : Type}.

(** [handler(event, context)].  What the tools it dispatches to do to
    the timezone caches is the business of [Optimized]; the call does not
    write the globals above. *)
Variable invoke : list effect -> handler -> event -> context -> result response.

Definition lambda_handler (ev : event) (ctx : context) : M response :=
  h <- get_handler ;;
  external Invoke (fun hist => invoke hist h ev ctx).

(** The entry points a caller can use. *)
Inductive call : Type :=
  | GetFastmcp
  | GetMangum
  | GetServer
  | GetApp
  | GetHandler
  | LambdaHandler (ev : event) (ctx : context).

(** The state a call leaves behind. *)
Definition after (c : call) (g : globals) : globals :=
  match c with
  | GetFastmcp => (get_fastmcp g).2
  | GetMangum => (get_mangum g).2
  | GetServer => (get_server g).2
  | GetApp => (get_app g).2
  | GetHandler => (get_handler g).2
  | LambdaHandler ev ctx => (lambda_handler ev ctx g).2
  end.

Fixpoint after_all (calls : list call) (g : globals) : globals :=
  match calls with
  | [] => g
  | c :: calls' => after_all calls' (after c g)
  end.

Definition is_invocation (c : call) : bool :=
  match c with
  | LambdaHandler _ _ => true
  | _ => false
  end.

End Invocation.
End Server.

(** A runtime in which every import and constructor succeeds. *)
Definition healthy : runtime :=
  {| import_fastmcp := fun _ => None;
     import_mangum := fun _ => None;
     decorate_tools := fun _ => None;
     MCPServer_init := fun _ _ => None;
     server_app := fun _ s => Ok (AppOf s);
     Mangum_init := fun _ _ => None |}.

(** A runtime in which reading [server.app] raises [e]. *)
Definition app_raises (e : exn) : runtime :=
  {| import_fastmcp := fun _ => None;
     import_mangum := fun _ => None;
     decorate_tools := fun _ => None;
     MCPServer_init := fun _ _ => None;
     server_app := fun _ _ => Raise e;
     Mangum_init := fun _ _ => None |}.

(** A runtime in which the [MCPServer] constructor raises [e]. *)
Definition constructor_raises (e : exn) : runtime :=
  {| import_fastmcp := fun _ => None;
     import_mangum := fun _ => None;
     decorate_tools := fun _ => None;
     MCPServer_init := fun _ _ => Some e;
     server_app := fun _ s => Ok (AppOf s);
     Mangum_init := fun _ _ => None |}.

(** An option that is set stays as it is. *)
Definition kept {A} (before after : option A) : Prop :=
  ∀ a, before = Some a → after = Some a.

(** What is initialized implies what it was built from. *)
Definition well_initialized (g : globals) : Prop :=
  (is_Some (_server g) → is_Some (_fastmcp_modules g))
  ∧ (is_Some (_app g) → is_Some (_server g))
  ∧ (is_Some (_handler g) →
     is_Some (_server g) ∧ is_Some (_mangum_module g)).

(** The handler is built, and so is everything it was built from. *)
Definition warm (g : globals) (h : handler) : Prop :=
  _handler g = Some h ∧ is_Some (_server g)
  ∧ is_Some (_mangum_module g) ∧ is_Some (_fastmcp_modules g).

End Bootstrap.

(** ** [get_timezone] with its lazy import of [zoneinfo] *)

(** [Optimized.get_timezone] takes the import in [get_zoneinfo] for
    granted.  Here the import is spelled out: [_zoneinfo_module] is a
    global of its own, and [imports] counts the attempts. *)
Module LazyZoneinfo.

Inductive zoneinfo_module : Type := ZoneinfoModule.

Record process : Type := mk_process {
  _zoneinfo_module : option zoneinfo_module;
  caches : Optimized.process;
  imports : nat
}.

Definition startup : process :=
  {| _zoneinfo_module := None; caches := Optimized.startup; imports := 0 |}.

Section Server.
Variable P : platform.

(** The exception the [n]-th attempt of [import zoneinfo] raises, if any. *)
Variable import_zoneinfo : nat -> option exn.

Definition get_zoneinfo (st : process) : result zoneinfo_module * process :=
  match _zoneinfo_module st with
  | Some m => (Ok m, st)
  | None =>
      match import_zoneinfo (imports st) with
      | Some e =>
          (Raise e,
           {| _zoneinfo_module := None; caches := caches st;
              imports := S (imports st) |})
      | None =>
          (Ok ZoneinfoModule,
           {| _zoneinfo_module := Some ZoneinfoModule; caches := caches st;
              imports := S (imports st) |})
      end
  end.

(** The body of [get_timezone]. *)
Definition get_timezone_wrapped (tz_name : option string) (st : process)
  : result tzinfo * process :=
  let tz_name := str_or tz_name (Optimized.LOCAL_TZ_NAME P) in
  match Optimized._timezone_cache (caches st) !! tz_name with
  | Some tz => (Ok tz, st)
  | None =>
      match get_zoneinfo st with
      | (Raise e, st') => (Raise e, st')
      | (Ok _, st') =>
          match ZoneInfo P tz_name with
          | Ok tz =>
              (Ok tz,
               {| _zoneinfo_module := _zoneinfo_module st';
                  caches :=
                    {| Optimized.get_timezone_lru :=
                         Optimized.get_timezone_lru (caches st');
                       Optimized._timezone_cache :=
                         <[tz_name := tz]>
                           (Optimized._timezone_cache (caches st')) |};
                  imports := imports st' |})
          | Raise _ =>
              match ZoneInfo P "UTC" with
              | Ok tz =>
                  (Ok tz,
                   {| _zoneinfo_module := _zoneinfo_module st';
                      caches :=
                        {| Optimized.get_timezone_lru :=
                             Optimized.get_timezone_lru (caches st');
                           Optimized._timezone_cache :=
                             <[tz_name := tz]>
                               (Optimized._timezone_cache (caches st')) |};
                      imports := imports st' |})
              | Raise e => (Raise e, st')
              end
          end
      end
  end.

(** [@lru_cache(maxsize=256)] *)
Definition get_timezone (tz_name : option string) (st : process)
  : result tzinfo * process :=
  match lru_find tz_name (Optimized.get_timezone_lru (caches st)) with
  | Some tz =>
      (Ok tz,
       {| _zoneinfo_module := _zoneinfo_module st;
          caches :=
            {| Optimized.get_timezone_lru :=
                 lru_touch tz_name tz (Optimized.get_timezone_lru (caches st));
               Optimized._timezone_cache :=
                 Optimized._timezone_cache (caches st) |};
          imports := imports st |})
  | None =>
      match get_timezone_wrapped tz_name st with
      | (Ok tz, st') =>
          (Ok tz,
           {| _zoneinfo_module := _zoneinfo_module st';
              caches :=
                {| Optimized.get_timezone_lru :=
                     lru_store 256 tz_name tz
                       (Optimized.get_timezone_lru (caches st'));
                   Optimized._timezone_cache :=
                     Optimized._timezone_cache (caches st') |};
              imports := imports st' |})
      | (Raise e, st') => (Raise e, st')
      end
  end.

(** The state after a sequence of calls. *)
Fixpoint after_all (calls : list (option string)) (st : process) : process :=
  match calls with
  | [] => st
  | tz_name :: calls' => after_all calls' (get_timezone tz_name st).2
  end.

End Server.
End LazyZoneinfo.

(** ** Proof automation for the lazy initialization *)

(** Unfolds the accessors down to their matches on globals and runtime. *)
Ltac boot_unfold :=
  unfold Bootstrap.after, Bootstrap.lambda_handler, Bootstrap.get_handler,
    Bootstrap.get_app, Bootstrap.get_server, Bootstrap.create_mcp_tools,
    Bootstrap.get_mangum, Bootstrap.get_fastmcp, Bootstrap.bind,
    Bootstrap.ret, Bootstrap.attempt, Bootstrap.external,
    Bootstrap.store_fastmcp_modules, Bootstrap.store_mangum_module,
    Bootstrap.store_server, Bootstrap.store_app, Bootstrap.store_handler
    in *.

(** The log of external calls has only grown. *)
Ltac solve_prefix :=
  simpl;
  first [ reflexivity
        | rewrite <- ?(assoc_L (++)); apply prefix_app_r; reflexivity ].

(** Uses what is known about the globals that are set. *)
Ltac boot_close :=
  intros; simpl in *; subst; simplify_eq;
  repeat match goal with
  | H : is_Some (Some _) → _ |- _ => specialize (H (mk_is_Some _ _ eq_refl))
  | H : is_Some None |- _ => by apply is_Some_None in H
  | H : _ ∧ _ |- _ => destruct H
  end;
  try done; try congruence; try (by eexists); try (intuition (eauto; done)).

(** Case analysis on every global and every external outcome met. *)
Ltac boot_cases :=
  boot_unfold; simpl in *;
  repeat (case_match; simpl in *; simplify_eq).

(** Closes the cases of one call with the import spelled out. *)
Ltac lazy_close :=
  repeat split; try done; try (by intros [? [=]]);
  try (intros; subst; by left); try (intros; right; by eauto).

(** * Properties *)

(** ** The LRU list *)

Section LruFacts.
Context {K V : Type} `{EqDecision K}.
Implicit Types (l : list (K * V)) (k : K) (v : V).

Lemma lru_find_None k l : lru_find k l = None ↔ k ∉ l.*1.
Proof.
  induction l as [|[k' v'] l IH]; simpl.
  - split; [intros _; apply not_elem_of_nil | done].
  - destruct (decide (k = k')) as [->|Hne].
    + split; [done | intros Hk; exfalso; apply Hk; left].
    + rewrite IH, not_elem_of_cons. split; [by intros ? | by intros [_ ?]].
Qed.

Lemma lru_find_Some_elem k v l : lru_find k l = Some v → (k, v) ∈ l.
Proof.
  induction l as [|[k' v'] l IH]; simpl; [done|].
  destruct (decide (k = k')) as [->|Hne].
  - intros [= ->]. left.
  - intros Hf. right. auto.
Qed.

Lemma lru_find_remove_eq k l : lru_find k (lru_remove k l) = None.
Proof.
  induction l as [|[k' v'] l IH]; simpl; [done|].
  destruct (decide (k = k')) as [->|Hne]; simpl; [done|].
  by rewrite decide_False.
Qed.

Lemma lru_find_remove_ne k k' l :
  k ≠ k' → lru_find k (lru_remove k' l) = lru_find k l.
Proof.
  intros Hne. induction l as [|[k0 v0] l IH]; simpl; [done|].
  destruct (decide (k' = k0)) as [->|Hne0]; simpl.
  - by rewrite decide_False.
  - destruct (decide (k = k0)); done.
Qed.

Lemma lru_find_touch k k' v l :
  lru_find k (lru_touch k' v l)
  = if decide (k = k') then Some v else lru_find k l.
Proof.
  unfold lru_touch; simpl. destruct (decide (k = k')); [done|].
  by apply lru_find_remove_ne.
Qed.

Lemma removelast_take l : removelast l = take (length l - 1) l.
Proof.
  induction l as [|p l IH]; [done|].
  destruct l as [|q l]; [done|].
  change (removelast (p :: q :: l)) with (p :: removelast (q :: l)).
  rewrite IH. simpl. by rewrite Nat.sub_0_r.
Qed.

Lemma lru_find_take k v n l :
  lru_find k (take n l) = Some v → lru_find k l = Some v.
Proof.
  revert n. induction l as [|[k' v'] l IH]; intros [|n]; simpl; try done.
  destruct (decide (k = k')); [done|]. apply IH.
Qed.

Lemma lru_find_store n k k' v v' l :
  lru_find k (lru_store n k' v' l) = Some v →
  (k = k' ∧ v = v') ∨ (k ≠ k' ∧ lru_find k l = Some v).
Proof.
  unfold lru_store; simpl. destruct (decide (k = k')) as [->|Hne].
  - intros [= ->]. by left.
  - intros Hf. right. split; [done|].
    destruct (decide (length l < n)%nat); [done|].
    rewrite removelast_take in Hf. by eapply lru_find_take.
Qed.

Lemma lru_find_store_eq n k v l : lru_find k (lru_store n k v l) = Some v.
Proof. unfold lru_store; simpl. by rewrite decide_True. Qed.

Lemma lru_remove_sublist k l : lru_remove k l `sublist_of` l.
Proof.
  induction l as [|[k' v'] l IH]; simpl; [done|].
  destruct (decide (k = k')); by constructor.
Qed.

Lemma length_lru_remove k v l :
  lru_find k l = Some v → (length (lru_remove k l) < length l)%nat.
Proof.
  induction l as [|[k' v'] l IH]; simpl; [done|].
  destruct (decide (k = k')) as [->|Hne].
  - intros _. pose proof (sublist_length _ _ (lru_remove_sublist k' l)). lia.
  - intros Hf. simpl. specialize (IH Hf). lia.
Qed.

Lemma length_lru_touch k v l :
  lru_find k l = Some v → (length (lru_touch k v l) ≤ length l)%nat.
Proof.
  intros Hf. unfold lru_touch; simpl.
  pose proof (length_lru_remove _ _ _ Hf). lia.
Qed.

Lemma length_lru_store n k v l :
  (0 < n)%nat → (length l ≤ n)%nat → (length (lru_store n k v l) ≤ n)%nat.
Proof.
  intros Hn Hl. unfold lru_store; simpl.
  destruct (decide (length l < n)%nat); [lia|].
  rewrite removelast_take, length_take. lia.
Qed.

Lemma NoDup_lru_touch k v l : NoDup l.*1 → NoDup (lru_touch k v l).*1.
Proof.
  intros Hnd. unfold lru_touch. rewrite fmap_cons; simpl.
  apply NoDup_cons. split.
  - apply lru_find_None, lru_find_remove_eq.
  - apply (sublist_NoDup _ l.*1); [exact Hnd|].
    apply fmap_sublist, lru_remove_sublist.
Qed.

Lemma NoDup_lru_store n k v l :
  lru_find k l = None → NoDup l.*1 → NoDup (lru_store n k v l).*1.
Proof.
  intros Hf Hnd. unfold lru_store. rewrite fmap_cons; simpl.
  apply lru_find_None in Hf.
  destruct (decide (length l < n)%nat).
  - apply NoDup_cons; done.
  - rewrite removelast_take, fmap_take. apply NoDup_cons. split.
    + intros Hin. apply Hf. by eapply subseteq_take.
    + apply (sublist_NoDup _ l.*1); [done | apply sublist_take].
Qed.

(** A full cache that misses drops exactly its oldest entry. *)
Lemma lru_store_full n k v l :
  length l = n → lru_store n k v l = (k, v) :: removelast l.
Proof.
  intros Hl. unfold lru_store. rewrite decide_False; [done | lia].
Qed.

Lemma lru_store_room n k v l :
  (length l < n)%nat → lru_store n k v l = (k, v) :: l.
Proof. intros Hl. unfold lru_store. by rewrite decide_True. Qed.
End LruFacts.

(** ** [get_timezone] *)


Section GetTimezone.
Variable P : platform.
Abbreviation local := (Optimized.LOCAL_TZ_NAME P).
Implicit Types (st : Optimized.process) (k : option string).

(** The four ways a call can go: a hit in the [lru_cache], a hit in
    [_timezone_cache], a fresh resolution, or a platform without UTC. *)
Lemma get_timezone_cases k st :
  let name := effective_name local k in
  let lru := Optimized.get_timezone_lru st in
  let cache := Optimized._timezone_cache st in
  (∃ tz, lru_find k lru = Some tz
     ∧ Optimized.get_timezone P k st
       = (Ok tz, Optimized.mk_process (lru_touch k tz lru) cache))
  ∨ (lru_find k lru = None ∧ ∃ tz, cache !! name = Some tz
     ∧ Optimized.get_timezone P k st
       = (Ok tz, Optimized.mk_process (lru_store 256 k tz lru) cache))
  ∨ (lru_find k lru = None ∧ cache !! name = None
     ∧ (zoneinfo_available P name = true
        ∨ zoneinfo_available P "UTC" = true)
     ∧ Optimized.get_timezone P k st
       = (Ok (resolved P name),
          Optimized.mk_process (lru_store 256 k (resolved P name) lru)
            (<[name := resolved P name]> cache)))
  ∨ (lru_find k lru = None ∧ cache !! name = None
     ∧ zoneinfo_available P name = false
     ∧ zoneinfo_available P "UTC" = false
     ∧ Optimized.get_timezone P k st
       = (Raise (ZoneInfoNotFoundError "UTC"), st)).
Proof.
  intros name lru cache. subst lru cache.
  unfold Optimized.get_timezone, Optimized.get_timezone_wrapped.
  fold (effective_name local k). fold name.
  destruct (lru_find k (Optimized.get_timezone_lru st)) as [tz|] eqn:Hlru.
  { left. eauto. }
  right.
  destruct (Optimized._timezone_cache st !! name) as [tz|] eqn:Hc.
  { left. destruct st; simpl in *. eauto. }
  right. unfold ZoneInfo, resolved.
  destruct (zoneinfo_available P name) eqn:Hz; simpl.
  { left. auto. }
  destruct (zoneinfo_available P "UTC") eqn:Hu; simpl.
  { left. auto. }
  right. auto.
Qed.

(** Entries of [_timezone_cache] are never removed or overwritten. *)
Lemma get_timezone_cache_mono k st name tz :
  Optimized._timezone_cache st !! name = Some tz →
  Optimized._timezone_cache (Optimized.get_timezone P k st).2 !! name = Some tz.
Proof.
  intros Hc.
  destruct (get_timezone_cases k st)
    as [(tz'&_&->)|[(_&tz'&_&->)|[(_&Hn&_&->)|(_&_&_&_&->)]]]; state_simpl; try done.
  rewrite lookup_insert_ne; [done|]. intros <-. congruence.
Qed.

(** A call that returns leaves its answer in [_timezone_cache]. *)
Lemma get_timezone_cached k st tz st' :
  lru_agrees local st →
  Optimized.get_timezone P k st = (Ok tz, st') →
  Optimized._timezone_cache st' !! effective_name local k = Some tz.
Proof.
  intros Hagree Hcall.
  destruct (get_timezone_cases k st)
    as [(tz'&Hf&E)|[(_&tz'&Hc&E)|[(_&Hn&_&E)|(_&_&_&_&E)]]];
    rewrite E in Hcall; simplify_eq; state_simpl.
  - by apply Hagree.
  - done.
  - apply lookup_insert_eq.
Qed.

Lemma get_timezone_lru_agrees k st :
  lru_agrees local st → lru_agrees local (Optimized.get_timezone P k st).2.
Proof.
  intros Hagree k0 tz0.
  destruct (get_timezone_cases k st)
    as [(tz'&Hf&->)|[(_&tz'&Hc&->)|[(_&Hn&_&->)|(_&_&_&_&->)]]]; state_simpl.
  - rewrite lru_find_touch. case_decide as Hk; [|by apply Hagree].
    intros [= <-]. subst k0. by apply Hagree.
  - intros [[-> ->]|[_ Hf]]%lru_find_store; [done | by apply Hagree].
  - intros [[-> ->]|[_ Hf]]%lru_find_store; [apply lookup_insert_eq|].
    rewrite lookup_insert_ne; [by apply Hagree|].
    intros E. apply Hagree in Hf. rewrite <- E in Hf. congruence.
  - by apply Hagree.
Qed.

Lemma get_timezone_cache_sound k st :
  cache_sound P st → cache_sound P (Optimized.get_timezone P k st).2.
Proof.
  intros Hsound name tz.
  destruct (get_timezone_cases k st)
    as [(tz'&Hf&->)|[(_&tz'&Hc&->)|[(_&Hn&_&->)|(_&_&_&_&->)]]]; state_simpl;
    try apply Hsound.
  rewrite lookup_insert. case_decide as Hk; [|apply Hsound].
  intros [= <-]. by subst name.
Qed.

Lemma get_timezone_lru_bounded k st :
  (length (Optimized.get_timezone_lru st) ≤ 256)%nat →
  (length (Optimized.get_timezone_lru (Optimized.get_timezone P k st).2)
   ≤ 256)%nat.
Proof.
  intros Hlen.
  destruct (get_timezone_cases k st)
    as [(tz'&Hf&->)|[(_&tz'&Hc&->)|[(_&Hn&_&->)|(_&_&_&_&->)]]]; state_simpl;
    try done.
  - etrans; [by eapply length_lru_touch | done].
  - apply length_lru_store; [lia | done].
  - apply length_lru_store; [lia | done].
Qed.

Lemma get_timezone_lru_NoDup k st :
  NoDup (Optimized.get_timezone_lru st).*1 →
  NoDup (Optimized.get_timezone_lru (Optimized.get_timezone P k st).2).*1.
Proof.
  intros Hnd.
  destruct (get_timezone_cases k st)
    as [(tz'&Hf&->)|[(Hf&tz'&Hc&->)|[(Hf&Hn&_&->)|(_&_&_&_&->)]]]; state_simpl;
    try done.
  - by apply NoDup_lru_touch.
  - by apply NoDup_lru_store.
  - by apply NoDup_lru_store.
Qed.

(** What holds of every state the process can reach. *)
Lemma reachable_invariant st :
  Optimized.reachable P st →
  lru_agrees local st ∧ cache_sound P st
  ∧ (length (Optimized.get_timezone_lru st) ≤ 256)%nat
  ∧ NoDup (Optimized.get_timezone_lru st).*1.
Proof.
  induction 1 as [|st k _ (Ha & Hs & Hl & Hn)].
  - repeat split.
    + intros k tz; simpl; done.
    + intros name tz; simpl. by rewrite lookup_empty.
    + simpl; lia.
    + simpl; constructor.
  - auto using get_timezone_lru_agrees, get_timezone_cache_sound,
      get_timezone_lru_bounded, get_timezone_lru_NoDup.
Qed.

Lemma reachable_resolve_all calls st :
  Optimized.reachable P st → Optimized.reachable P (resolve_all P calls st).
Proof.
  revert st. induction calls as [|k calls IH]; intros st Hr; simpl; [done|].
  apply IH. by constructor.
Qed.

(** On a platform that can load UTC, a call returns. *)
Lemma get_timezone_returns k st :
  zoneinfo_available P "UTC" = true →
  ∃ tz, (Optimized.get_timezone P k st).1 = Ok tz.
Proof.
  intros Hutc.
  destruct (get_timezone_cases k st)
    as [(tz'&Hf&->)|[(_&tz'&Hc&->)|[(_&Hn&_&->)|(_&_&_&Hu&_)]]]; state_simpl;
    eauto. congruence.
Qed.

(** In a reachable state the answer is the one of the fallback chain. *)
Lemma get_timezone_resolved k st tz :
  Optimized.reachable P st →
  (Optimized.get_timezone P k st).1 = Ok tz →
  tz = resolved P (effective_name local k).
Proof.
  intros (Ha & Hs & _)%reachable_invariant.
  destruct (get_timezone_cases k st)
    as [(tz'&Hf&->)|[(_&tz'&Hc&->)|[(_&Hn&_&->)|(_&_&_&_&->)]]]; state_simpl;
    intros [= <-]; auto.
Qed.
End GetTimezone.

Section Memo.
Variable P : platform.
Abbreviation local' := (Optimized.LOCAL_TZ_NAME P).

(** Once [_timezone_cache] holds a handle for the effective name, every
    call returns it, whatever the timezone database says. *)
Lemma get_timezone_hit k st tz :
  lru_agrees local' st →
  Optimized._timezone_cache st !! effective_name local' k = Some tz →
  (Optimized.get_timezone P k st).1 = Ok tz.
Proof.
  intros Hagree Hc.
  destruct (get_timezone_cases P k st)
    as [(tz'&Hf&->)|[(_&tz'&Hc'&->)|[(_&Hn&_&->)|(_&Hn&_&_&->)]]];
    state_simpl; try congruence.
  apply Hagree in Hf. congruence.
Qed.

Lemma resolve_all_lru_agrees calls st :
  lru_agrees local' st → lru_agrees local' (resolve_all P calls st).
Proof.
  revert st. induction calls as [|k calls IH]; intros st Ha; simpl; [done|].
  by apply IH, get_timezone_lru_agrees.
Qed.

Lemma resolve_all_cache_mono calls st name tz :
  Optimized._timezone_cache st !! name = Some tz →
  Optimized._timezone_cache (resolve_all P calls st) !! name = Some tz.
Proof.
  revert st. induction calls as [|k calls IH]; intros st Hc; simpl; [done|].
  by apply IH, get_timezone_cache_mono.
Qed.

(** In a state where the two caches agree, the decorated function
    answers like its body. *)
Lemma get_timezone_unwrapped k st :
  lru_agrees local' st →
  (Optimized.get_timezone P k st).1
  = (Optimized.get_timezone_wrapped P k st).1.
Proof.
  intros Hagree. unfold Optimized.get_timezone.
  destruct (lru_find k (Optimized.get_timezone_lru st)) as [tz|] eqn:Hf.
  - apply Hagree in Hf. unfold Optimized.get_timezone_wrapped.
    fold (effective_name local' k). by rewrite Hf.
  - by destruct (Optimized.get_timezone_wrapped P k st) as [[tz|e] st'].
Qed.
End Memo.

Lemma LOCAL_TZ_NAME_environ P P' :
  environ_TZ P' = environ_TZ P →
  Optimized.LOCAL_TZ_NAME P' = Optimized.LOCAL_TZ_NAME P.
Proof.
  intros E. unfold Optimized.LOCAL_TZ_NAME, environ_get_TZ. by rewrite E.
Qed.

(** ** Resolution never fails and where it falls back (C1) *)

(** C1, amended.  On a platform that can load UTC, [get_timezone] of the
    optimized variant returns for every argument, and for a non-empty
    name unknown to the timezone databases it returns the UTC handle.  The
    lookup in [get_current_time] of the original variant cannot raise (it
    returns a record, not a [result]) and for such a name it reports the
    process default [local_timezone], not UTC. *)
Theorem resolution_falls_back (P : platform) (st : Optimized.process)
    (k : option string) (name : string) (now_utc : Z) :
  zoneinfo_available P "UTC" = true →
  Optimized.reachable P st →
  name ≠ "" →
  zoneinfo_available P name = false →
  pytz_lookup P name = None →
  (∃ tz, (Optimized.get_timezone P k st).1 = Ok tz)
  ∧ (∃ tz, (Optimized.get_timezone P (Some name) st).1 = Ok tz
           ∧ tz = ZoneInfoObj "UTC" ∧ tz_str tz = "UTC")
  ∧ Original.timezone (Original.get_current_time P (Some name) now_utc)
    = tz_str (Original.local_timezone P).
Proof.
  intros Hutc Hreach Hne Hname Hpytz.
  split; [by apply get_timezone_returns|]. split.
  - destruct (get_timezone_returns P (Some name) st Hutc) as [tz Htz].
    exists tz. split; [done|].
    apply get_timezone_resolved in Htz; [|done].
    assert (effective_name (Optimized.LOCAL_TZ_NAME P) (Some name) = name) as E
      by (by destruct name).
    rewrite E in Htz. unfold resolved in Htz. rewrite Hname in Htz.
    by subst tz.
  - unfold Original.get_current_time; simpl.
    destruct name as [|c name]; [done|].
    unfold ZoneInfo, pytz_timezone. by rewrite Hname, Hpytz.
Qed.

Lemma resolution_falls_back_witness :
  (∃ tz, (Optimized.get_timezone (Tzdata.cpython (Some "Asia/Seoul"))
            None Optimized.startup).1 = Ok tz)
  ∧ (∃ tz, (Optimized.get_timezone (Tzdata.cpython (Some "Asia/Seoul"))
              (Some "Mars/Phobos") Optimized.startup).1 = Ok tz
           ∧ tz = ZoneInfoObj "UTC" ∧ tz_str tz = "UTC")
  ∧ Original.timezone
      (Original.get_current_time (Tzdata.cpython (Some "Asia/Seoul"))
         (Some "Mars/Phobos") 0)
    = tz_str (Original.local_timezone (Tzdata.cpython (Some "Asia/Seoul"))).
Proof.
  apply (resolution_falls_back (Tzdata.cpython (Some "Asia/Seoul"))
           Optimized.startup None "Mars/Phobos" 0).
  - reflexivity.
  - constructor.
  - discriminate.
  - reflexivity.
  - reflexivity.
Defined.

(** C1 as stated fails in the original variant: with [TZ=Asia/Seoul] an
    unknown name makes [get_current_time] answer for Asia/Seoul, and
    [convert_time] raises pytz's [UnknownTimeZoneError]. *)
Lemma resolution_not_always_UTC :
  Original.timezone
    (Original.get_current_time (Tzdata.cpython (Some "Asia/Seoul"))
       (Some "Mars/Phobos") 0) = "Asia/Seoul"
  ∧ Original.timezone
      (Original.get_current_time (Tzdata.cpython (Some "Asia/Seoul"))
         (Some "Mars/Phobos") 0) ≠ "UTC"
  ∧ Original.convert_time (Tzdata.cpython None) "Mars/Phobos" "09:00" "UTC"
      Tzdata.day_2026_11_04
    = Raise (UnknownTimeZoneError "Mars/Phobos").
Proof.
  split; [|split].
  - reflexivity.
  - intros E. vm_compute in E. discriminate E.
  - reflexivity.
Qed.

(** ** Invalid time strings (C2) *)

(** On a platform that can load UTC, [convert_time] of the optimized
    variant resolves both zones and then runs its [try] block. *)
Lemma convert_time_unfold P source time target today st :
  zoneinfo_available P "UTC" = true →
  ∃ src_tz st1 tgt_tz st2,
    Optimized.get_timezone P (Some source) st = (Ok src_tz, st1)
    ∧ Optimized.get_timezone P (Some target) st1 = (Ok tgt_tz, st2)
    ∧ Optimized.convert_time P source time target today st
      = (Optimized.try_except_ValueError
           (Optimized.convert_time_try P src_tz tgt_tz time today)
           (λ msg,
              Optimized.Invalid
                {| Optimized.error :=
                     "Invalid time format: " +:+ time
                     +:+ ". Expected HH:MM format.";
                   Optimized.details := msg |}),
         st2).
Proof.
  intros Hutc. unfold Optimized.convert_time, Optimized.bind.
  destruct (get_timezone_returns P (Some source) st Hutc) as [src_tz Hs].
  destruct (Optimized.get_timezone P (Some source) st) as [r1 st1] eqn:E1.
  simpl in Hs; subst r1.
  destruct (get_timezone_returns P (Some target) st1 Hutc) as [tgt_tz Ht].
  destruct (Optimized.get_timezone P (Some target) st1) as [r2 st2] eqn:E2.
  simpl in Ht; subst r2.
  exists src_tz, st1, tgt_tz, st2. repeat split; done.
Qed.

(** The three strings of the specification, and two strings that are not
    of the form HH:MM, on the reference parser. *)
Lemma fromisoformat_examples :
  Tzdata.fromisoformat "25:00" = inl "hour must be in 0..23"
  ∧ Tzdata.fromisoformat "12:60" = inl "minute must be in 0..59"
  ∧ Tzdata.fromisoformat "noon" = inl "Invalid isoformat string: 'noon'"
  ∧ Tzdata.fromisoformat "09:00" = inr (mk_time 9 0 0 0)
  ∧ Tzdata.fromisoformat "12:30:45" = inr (mk_time 12 30 45 0)
  ∧ Tzdata.fromisoformat "12" = inr (mk_time 12 0 0 0).
Proof. repeat split. Qed.

(** C2, amended.  In the optimized variant, on a platform that can load
    UTC, a time string that [time.fromisoformat] rejects makes
    [convert_time] return the error record, which carries the string and
    the parser's reason; a string the parser accepts, whether of the form
    HH:MM or not, gives a conversion record. *)
Theorem convert_time_invalid_time (P : platform) (st : Optimized.process)
    (source time target : string) (today : date) :
  zoneinfo_available P "UTC" = true →
  match time_fromisoformat P time with
  | inl msg =>
      (Optimized.convert_time P source time target today st).1
      = Ok (Optimized.Invalid
              {| Optimized.error :=
                   "Invalid time format: " +:+ time
                   +:+ ". Expected HH:MM format.";
                 Optimized.details := msg |})
  | inr _ =>
      ∃ r, (Optimized.convert_time P source time target today st).1
           = Ok (Optimized.Converted r)
  end.
Proof.
  intros Hutc.
  destruct (convert_time_unfold P source time target today st Hutc)
    as (src_tz & st1 & tgt_tz & st2 & _ & _ & ->).
  unfold Optimized.convert_time_try, fromisoformat.
  destruct (time_fromisoformat P time) as [msg|t]; simpl; eauto.
Qed.

Lemma convert_time_invalid_time_witness :
  (Optimized.convert_time (Tzdata.cpython None) "Asia/Seoul" "25:00"
     "America/New_York" Tzdata.day_2026_11_04 Optimized.startup).1
  = Ok (Optimized.Invalid
          {| Optimized.error :=
               "Invalid time format: 25:00. Expected HH:MM format.";
             Optimized.details := "hour must be in 0..23" |}).
Proof.
  apply (convert_time_invalid_time (Tzdata.cpython None) Optimized.startup
           "Asia/Seoul" "25:00" "America/New_York" Tzdata.day_2026_11_04).
  reflexivity.
Defined.

(** C2 as stated fails: "12:30:45" and "12" are not HH:MM pairs, yet the
    optimized [convert_time] converts them; and the original variant has
    no [except] clause, so "25:00" raises [ValueError] to the caller. *)
Lemma invalid_time_not_always_error_record :
  (∃ r, (Optimized.convert_time (Tzdata.cpython None) "UTC" "12:30:45"
           "Asia/Seoul" Tzdata.day_2026_11_04 Optimized.startup).1
        = Ok (Optimized.Converted r)
        ∧ Optimized.source_time r = "2026-11-04T12:30:45+00:00"
        ∧ Optimized.target_time r = "2026-11-04T21:30:45+09:00")
  ∧ (∃ r, (Optimized.convert_time (Tzdata.cpython None) "UTC" "12"
             "Asia/Seoul" Tzdata.day_2026_11_04 Optimized.startup).1
          = Ok (Optimized.Converted r)
          ∧ Optimized.source_time r = "2026-11-04T12:00:00+00:00"
          ∧ Optimized.target_time r = "2026-11-04T21:00:00+09:00")
  ∧ Original.convert_time (Tzdata.cpython None) "UTC" "25:00" "Asia/Seoul"
      Tzdata.day_2026_11_04
    = Raise (ValueError "hour must be in 0..23").
Proof.
  split; [|split; [|reflexivity]].
  - eexists. split; [vm_compute; reflexivity|]. split; reflexivity.
  - eexists. split; [vm_compute; reflexivity|]. split; reflexivity.
Qed.

(** ** Resolving the same name twice (C5) *)

(** C5.  In the optimized variant, once a call of [get_timezone] has
    returned a handle for a name, every later call with that name in the
    same process returns the same handle, hence the same canonical name:
    after any other calls, and whatever the timezone database has become
    in the meantime ([P'] differs from [P] in everything but the
    environment), so the outcome is memoized, fallback outcomes included.
    The original variant keeps no cache; its lookup is a function of the
    name and the platform, so two calls at different clock readings
    report the same name as well. *)
Theorem resolve_twice_same_handle (P P' : platform) (st : Optimized.process)
    (calls : list (option string)) (k : option string) (tz : tzinfo)
    (now1 now2 : Z) :
  environ_TZ P' = environ_TZ P →
  Optimized.reachable P st →
  (Optimized.get_timezone P k st).1 = Ok tz →
  (Optimized.get_timezone P' k
     (resolve_all P' calls (Optimized.get_timezone P k st).2)).1 = Ok tz
  ∧ Original.timezone (Original.get_current_time P k now1)
    = Original.timezone (Original.get_current_time P k now2).
Proof.
  intros Henv Hreach Hcall. split; [|done].
  pose proof (LOCAL_TZ_NAME_environ P P' Henv) as Hlocal.
  destruct (reachable_invariant P st Hreach) as (Hagree & _).
  destruct (Optimized.get_timezone P k st) as [r st1] eqn:E.
  simpl in Hcall; subst r. simpl.
  assert (lru_agrees (Optimized.LOCAL_TZ_NAME P) st1) as Hagree1.
  { pose proof (get_timezone_lru_agrees P k st Hagree) as H. by rewrite E in H. }
  pose proof (get_timezone_cached P k st tz st1 Hagree E) as Hcached.
  rewrite <- Hlocal in Hagree1, Hcached.
  apply get_timezone_hit.
  - by apply resolve_all_lru_agrees.
  - by apply resolve_all_cache_mono.
Qed.

Lemma resolve_twice_same_handle_witness :
  (Optimized.get_timezone (Tzdata.cpython None) (Some "Mars/Phobos")
     (resolve_all (Tzdata.cpython None)
        [Some "Asia/Seoul"; None; Some "America/New_York"]
        (Optimized.get_timezone (Tzdata.cpython None) (Some "Mars/Phobos")
           Optimized.startup).2)).1 = Ok (ZoneInfoObj "UTC")
  ∧ Original.timezone
      (Original.get_current_time (Tzdata.cpython None) (Some "Mars/Phobos") 0)
    = Original.timezone
        (Original.get_current_time (Tzdata.cpython None) (Some "Mars/Phobos")
           1793512800000000).
Proof.
  apply (resolve_twice_same_handle (Tzdata.cpython None) (Tzdata.cpython None)
           Optimized.startup
           [Some "Asia/Seoul"; None; Some "America/New_York"]
           (Some "Mars/Phobos") (ZoneInfoObj "UTC") 0 1793512800000000).
  - reflexivity.
  - constructor.
  - reflexivity.
Defined.

(** ** The default timezone (C9) *)

(** C9.  With an absent ([None]) or empty timezone name, [get_timezone]
    answers as it does for the name [LOCAL_TZ_NAME], which is the value
    of [TZ], or "UTC" when [TZ] is unset; when zoneinfo knows that name
    the answer is its handle.  The original [get_current_time] reports
    [local_timezone], which [get_local_timezone] builds from the same
    name. *)
Theorem absent_name_uses_default (P : platform) (st : Optimized.process)
    (absent : option string) (now_utc : Z) :
  absent = None ∨ absent = Some "" →
  Optimized.reachable P st →
  zoneinfo_available P (default "UTC" (environ_TZ P)) = true →
  Optimized.LOCAL_TZ_NAME P = default "UTC" (environ_TZ P)
  ∧ (Optimized.get_timezone P absent st).1
    = (Optimized.get_timezone P (Some (Optimized.LOCAL_TZ_NAME P)) st).1
  ∧ (Optimized.get_timezone P absent st).1
    = Ok (ZoneInfoObj (default "UTC" (environ_TZ P)))
  ∧ Original.local_timezone P = ZoneInfoObj (default "UTC" (environ_TZ P))
  ∧ Original.timezone (Original.get_current_time P absent now_utc)
    = default "UTC" (environ_TZ P).
Proof.
  intros Habsent Hreach Havail.
  assert (Optimized.LOCAL_TZ_NAME P = default "UTC" (environ_TZ P)) as Hlocal.
  { unfold Optimized.LOCAL_TZ_NAME, environ_get_TZ. by destruct (environ_TZ P). }
  destruct (reachable_invariant P st Hreach) as (Hagree & Hsound & _).
  assert (effective_name (Optimized.LOCAL_TZ_NAME P) absent
          = Optimized.LOCAL_TZ_NAME P) as Heff
    by (by destruct Habsent as [-> | ->]).
  assert (effective_name (Optimized.LOCAL_TZ_NAME P)
            (Some (Optimized.LOCAL_TZ_NAME P))
          = Optimized.LOCAL_TZ_NAME P) as Heff'
    by (by destruct (Optimized.LOCAL_TZ_NAME P)).
  assert ((Optimized.get_timezone P absent st).1
          = (Optimized.get_timezone P (Some (Optimized.LOCAL_TZ_NAME P)) st).1)
    as Hsame.
  { rewrite !get_timezone_unwrapped by done.
    unfold Optimized.get_timezone_wrapped.
    fold (effective_name (Optimized.LOCAL_TZ_NAME P) absent).
    fold (effective_name (Optimized.LOCAL_TZ_NAME P)
            (Some (Optimized.LOCAL_TZ_NAME P))).
    by rewrite Heff, Heff'. }
  assert (zoneinfo_available P "UTC" = true
          ∨ zoneinfo_available P (Optimized.LOCAL_TZ_NAME P) = true) as Hsome
    by (right; by rewrite Hlocal).
  split; [done|]. split; [done|]. split; [|split].
  - destruct (get_timezone_cases P absent st)
      as [(tz&Hf&E)|[(_&tz&Hc&E)|[(_&Hn&_&E)|(_&_&Hz&_&_)]]].
    + rewrite E; state_simpl. apply Hagree, Hsound in Hf.
      rewrite Heff in Hf. unfold resolved in Hf.
      rewrite Hlocal, Havail in Hf. by subst tz.
    + rewrite E; state_simpl. apply Hsound in Hc.
      rewrite Heff in Hc. unfold resolved in Hc.
      rewrite Hlocal, Havail in Hc. by subst tz.
    + rewrite E; state_simpl. rewrite Heff. unfold resolved.
      by rewrite Hlocal, Havail.
    + rewrite Heff, Hlocal in Hz. congruence.
  - unfold Original.local_timezone, Original.get_local_timezone.
    unfold Optimized.LOCAL_TZ_NAME in Hlocal. rewrite Hlocal.
    unfold ZoneInfo. by rewrite Havail.
  - assert (Original.local_timezone P
            = ZoneInfoObj (default "UTC" (environ_TZ P))) as Horig.
    { unfold Original.local_timezone, Original.get_local_timezone.
      unfold Optimized.LOCAL_TZ_NAME in Hlocal. rewrite Hlocal.
      unfold ZoneInfo. by rewrite Havail. }
    destruct Habsent as [-> | ->]; unfold Original.get_current_time; simpl;
      by rewrite Horig.
Qed.

Lemma absent_name_uses_default_witness :
  Optimized.LOCAL_TZ_NAME (Tzdata.cpython None) = "UTC"
  ∧ (Optimized.get_timezone (Tzdata.cpython None) None Optimized.startup).1
    = (Optimized.get_timezone (Tzdata.cpython None) (Some "UTC")
         Optimized.startup).1
  ∧ (Optimized.get_timezone (Tzdata.cpython None) None Optimized.startup).1
    = Ok (ZoneInfoObj "UTC")
  ∧ Original.local_timezone (Tzdata.cpython None) = ZoneInfoObj "UTC"
  ∧ Original.timezone
      (Original.get_current_time (Tzdata.cpython None) None 0) = "UTC".
Proof.
  apply (absent_name_uses_default (Tzdata.cpython None) Optimized.startup
           None 0).
  - by left.
  - constructor.
  - reflexivity.
Defined.

(** ** The current time in UTC (C8) *)

(** C8.  On a platform whose zoneinfo has the key "UTC", with offset and
    daylight saving zero at all times, [get_current_time("UTC")] returns
    a record with [timezone] "UTC", [dst] false and [utc_offset_hours] 0,
    in both variants. *)
Theorem get_current_time_UTC (P : platform) (st : Optimized.process)
    (now_utc : Z) :
  zoneinfo_available P "UTC" = true →
  (∀ u, dt_tzinfo (tz_fromutc P (ZoneInfoObj "UTC") u) = ZoneInfoObj "UTC") →
  (∀ wall fold, tz_utcoffset P (ZoneInfoObj "UTC") wall fold = 0) →
  (∀ wall fold, tz_dst P (ZoneInfoObj "UTC") wall fold = 0) →
  Optimized.reachable P st →
  (∃ r, (Optimized.get_current_time P (Some "UTC") now_utc st).1 = Ok r
        ∧ Optimized.timezone r = "UTC"
        ∧ Optimized.dst r = false
        ∧ Optimized.utc_offset_hours r = 0%Q)
  ∧ Original.timezone (Original.get_current_time P (Some "UTC") now_utc) = "UTC"
  ∧ Original.dst (Original.get_current_time P (Some "UTC") now_utc) = false
  ∧ Original.utc_offset_hours (Original.get_current_time P (Some "UTC") now_utc)
    = 0%Q.
Proof.
  intros Hutc Hself Hoff Hdst Hreach. split.
  - unfold Optimized.get_current_time, Optimized.bind, Optimized.ret.
    change (str_or (Some "UTC") (Optimized.LOCAL_TZ_NAME P)) with "UTC".
    destruct (get_timezone_returns P (Some "UTC") st Hutc) as [tz Htz].
    pose proof (get_timezone_resolved P (Some "UTC") st tz Hreach Htz) as E.
    change (effective_name (Optimized.LOCAL_TZ_NAME P) (Some "UTC"))
      with "UTC" in E.
    unfold resolved in E. rewrite Hutc in E. subst tz.
    destruct (Optimized.get_timezone P (Some "UTC") st) as [r st'].
    simpl in Htz; subst r.
    eexists. split; [reflexivity|]. simpl.
    unfold dt_dst, dt_utcoffset, datetime_now.
    rewrite Hself, Hoff, Hdst. done.
  - unfold Original.get_current_time, ZoneInfo. rewrite Hutc. simpl.
    unfold dt_dst, dt_utcoffset, datetime_now.
    rewrite Hself, Hoff, Hdst. done.
Qed.

Lemma get_current_time_UTC_witness :
  (∃ r, (Optimized.get_current_time (Tzdata.cpython (Some "Asia/Seoul"))
           (Some "UTC") 1793512800000000 Optimized.startup).1 = Ok r
        ∧ Optimized.timezone r = "UTC"
        ∧ Optimized.dst r = false
        ∧ Optimized.utc_offset_hours r = 0%Q)
  ∧ Original.timezone
      (Original.get_current_time (Tzdata.cpython (Some "Asia/Seoul"))
         (Some "UTC") 1793512800000000) = "UTC"
  ∧ Original.dst
      (Original.get_current_time (Tzdata.cpython (Some "Asia/Seoul"))
         (Some "UTC") 1793512800000000) = false
  ∧ Original.utc_offset_hours
      (Original.get_current_time (Tzdata.cpython (Some "Asia/Seoul"))
         (Some "UTC") 1793512800000000) = 0%Q.
Proof.
  apply (get_current_time_UTC (Tzdata.cpython (Some "Asia/Seoul"))
           Optimized.startup 1793512800000000).
  - reflexivity.
  - intros u. reflexivity.
  - intros wall [|]; vm_compute; reflexivity.
  - intros wall [|]; vm_compute; reflexivity.
  - constructor.
Defined.

(** ** Offsets that are zero (C10) *)

(** C10.  When [convert_time] has resolved its zones and parsed its time,
    and the UTC offset of the source datetime or of the converted
    datetime is [timedelta(0)], the call succeeds with
    [utc_offset_diff_hours] equal to [None], in both variants: the guard
    [if tgt_offset and src_offset] tests truthiness, and [timedelta(0)]
    is falsy. *)
Theorem zero_offset_gives_None (P : platform) (src_tz tgt_tz : tzinfo)
    (t : time) (time : string) (today : date) :
  time_fromisoformat P time = inr t →
  dt_utcoffset P (replace_tzinfo (combine today t) src_tz) = Some 0
  ∨ dt_utcoffset P
      (astimezone P (replace_tzinfo (combine today t) src_tz) tgt_tz)
    = Some 0 →
  (∀ source target st st1 st2,
     Optimized.get_timezone P (Some source) st = (Ok src_tz, st1) →
     Optimized.get_timezone P (Some target) st1 = (Ok tgt_tz, st2) →
     ∃ r, Optimized.convert_time P source time target today st
          = (Ok (Optimized.Converted r), st2)
          ∧ Optimized.utc_offset_diff_hours r = None)
  ∧ (∀ source target,
       Original.lookup_timezone P source = Ok src_tz →
       Original.lookup_timezone P target = Ok tgt_tz →
       ∃ r, Original.convert_time P source time target today = Ok r
            ∧ Original.utc_offset_diff_hours r = None).
Proof.
  intros Hparse Hzero.
  assert (∀ a b : timedelta, a = 0 ∨ b = 0 →
          timedelta_bool b && timedelta_bool a = false) as Hguard.
  { intros a b [-> | ->]; unfold timedelta_bool; simpl;
      [apply andb_false_r | done]. }
  unfold dt_utcoffset in Hzero.
  assert (tz_utcoffset P
            (dt_tzinfo (replace_tzinfo (combine today t) src_tz))
            (dt_wall (replace_tzinfo (combine today t) src_tz))
            (dt_fold (replace_tzinfo (combine today t) src_tz)) = 0
          ∨ tz_utcoffset P
              (dt_tzinfo
                 (astimezone P (replace_tzinfo (combine today t) src_tz) tgt_tz))
              (dt_wall
                 (astimezone P (replace_tzinfo (combine today t) src_tz) tgt_tz))
              (dt_fold
                 (astimezone P (replace_tzinfo (combine today t) src_tz) tgt_tz))
            = 0) as Hzero'.
  { destruct Hzero as [[= E] | [= E]]; [left | right]; exact E. }
  split.
  - intros source target st st1 st2 Hs Ht.
    unfold Optimized.convert_time, Optimized.bind. rewrite Hs, Ht.
    unfold Optimized.convert_time_try, fromisoformat. rewrite Hparse.
    eexists. split; [reflexivity|]. simpl.
    unfold dt_utcoffset. by rewrite Hguard.
  - intros source target Hs Ht.
    unfold Original.convert_time, fromisoformat. rewrite Hs, Ht, Hparse.
    eexists. split; [reflexivity|]. simpl.
    unfold dt_utcoffset. by rewrite Hguard.
Qed.

Lemma zero_offset_gives_None_witness :
  (∃ r, Optimized.convert_time (Tzdata.cpython None) "UTC" "09:00"
          "Asia/Seoul" Tzdata.day_2026_11_04 Optimized.startup
        = (Ok (Optimized.Converted r),
           (Optimized.get_timezone (Tzdata.cpython None) (Some "Asia/Seoul")
              (Optimized.get_timezone (Tzdata.cpython None) (Some "UTC")
                 Optimized.startup).2).2)
        ∧ Optimized.utc_offset_diff_hours r = None)
  ∧ (∃ r, Original.convert_time (Tzdata.cpython None) "UTC" "09:00"
            "Asia/Seoul" Tzdata.day_2026_11_04 = Ok r
          ∧ Original.utc_offset_diff_hours r = None).
Proof.
  destruct (zero_offset_gives_None (Tzdata.cpython None)
              (ZoneInfoObj "UTC") (ZoneInfoObj "Asia/Seoul")
              (mk_time 9 0 0 0) "09:00" Tzdata.day_2026_11_04) as [Hopt Horig].
  - reflexivity.
  - left. reflexivity.
  - split.
    + apply (Hopt "UTC" "Asia/Seoul" Optimized.startup
               (Optimized.get_timezone (Tzdata.cpython None) (Some "UTC")
                  Optimized.startup).2); reflexivity.
    + apply (Horig "UTC" "Asia/Seoul"); reflexivity.
Defined.

(** ** The two caches (C6) *)

Lemma garbled_inj p q : garbled p = garbled q → p = q.
Proof.
  revert q. induction p as [p IH|p IH|]; intros [q|q|]; simpl; try done;
    intros [= E]; f_equal; by apply IH.
Qed.

Lemma garbled_name_inj n m : garbled_name n = garbled_name m → n = m.
Proof. intros E. by apply SuccNat2Pos.inj, garbled_inj. Qed.

Lemma garbled_name_effective (local : string) n :
  effective_name local (Some (garbled_name n)) = garbled_name n.
Proof. unfold garbled_name. by destruct (Pos.of_succ_nat n). Qed.

Section CacheGrowth.
Variable P : platform.
Hypothesis Hutc : zoneinfo_available P "UTC" = true.
Abbreviation local'' := (Optimized.LOCAL_TZ_NAME P).

(** A call adds the effective name to the keys of [_timezone_cache]. *)
Lemma get_timezone_dom k st :
  lru_agrees local'' st →
  dom (Optimized._timezone_cache (Optimized.get_timezone P k st).2)
  = {[effective_name local'' k]} ∪ dom (Optimized._timezone_cache st).
Proof.
  intros Hagree.
  destruct (get_timezone_cases P k st)
    as [(tz&Hf&->)|[(_&tz&Hc&->)|[(_&Hn&_&->)|(_&_&_&Hu&_)]]]; state_simpl.
  - apply Hagree in Hf. symmetry.
    apply subseteq_union_1_L, singleton_subseteq_l, elem_of_dom. eauto.
  - symmetry.
    apply subseteq_union_1_L, singleton_subseteq_l, elem_of_dom. eauto.
  - apply dom_insert_L.
  - congruence.
Qed.

Lemma resolve_all_dom calls st :
  lru_agrees local'' st →
  dom (Optimized._timezone_cache (resolve_all P calls st))
  = list_to_set (effective_name local'' <$> calls)
    ∪ dom (Optimized._timezone_cache st).
Proof.
  revert st. induction calls as [|k calls IH]; intros st Hagree; simpl.
  - by rewrite (left_id_L ∅ (∪)).
  - rewrite IH by (by apply get_timezone_lru_agrees).
    rewrite get_timezone_dom by done.
    rewrite (comm_L (∪) {[effective_name local'' k]} (list_to_set _)).
    by rewrite !(assoc_L (∪)).
Qed.

(** [_timezone_cache] holds one entry per distinct name it was asked. *)
Lemma resolve_all_garbled_size n :
  size (Optimized._timezone_cache
          (resolve_all P (garbled_names n) Optimized.startup)) = n.
Proof.
  rewrite <- size_dom, resolve_all_dom.
  2: { intros k tz; simpl; done. }
  simpl. rewrite dom_empty_L, (right_id_L ∅ (∪)).
  unfold garbled_names. rewrite <- list_fmap_compose.
  rewrite size_list_to_set.
  - by rewrite length_fmap, length_seq.
  - apply NoDup_fmap_2_strong; [|apply NoDup_seq].
    intros i j _ _ E. unfold compose in E.
    rewrite !garbled_name_effective in E. by apply garbled_name_inj.
Qed.
End CacheGrowth.

(** C6, amended.  In every reachable state the [lru_cache] of
    [get_timezone] holds at most 256 entries, at most one per argument; a
    hit moves its entry to the front and a miss on a full [lru_cache]
    drops the entry at the back, the least recently used one; and an
    entry of [_timezone_cache] is never removed or replaced by a later
    call.  ([_timezone_cache] itself has no capacity ceiling.) *)
Theorem resolver_caches_invariant (P : platform) (st : Optimized.process)
    (k : option string) :
  Optimized.reachable P st →
  (length (Optimized.get_timezone_lru st) ≤ 256)%nat
  ∧ NoDup (Optimized.get_timezone_lru st).*1
  ∧ (∀ name tz,
       Optimized._timezone_cache st !! name = Some tz →
       Optimized._timezone_cache (Optimized.get_timezone P k st).2 !! name
       = Some tz)
  ∧ (∀ tz,
       lru_find k (Optimized.get_timezone_lru st) = Some tz →
       Optimized.get_timezone_lru (Optimized.get_timezone P k st).2
       = (k, tz) :: lru_remove k (Optimized.get_timezone_lru st))
  ∧ (∀ tz,
       length (Optimized.get_timezone_lru st) = 256%nat →
       lru_find k (Optimized.get_timezone_lru st) = None →
       (Optimized.get_timezone P k st).1 = Ok tz →
       Optimized.get_timezone_lru (Optimized.get_timezone P k st).2
       = (k, tz) :: removelast (Optimized.get_timezone_lru st)).
Proof.
  intros Hreach.
  destruct (reachable_invariant P st Hreach) as (_ & _ & Hlen & Hnd).
  split; [done|]. split; [done|]. split; [|split].
  - intros name tz. apply get_timezone_cache_mono.
  - intros tz Hhit. unfold Optimized.get_timezone. by rewrite Hhit.
  - intros tz Hfull Hmiss.
    destruct (get_timezone_cases P k st)
      as [(tz'&Hf&->)|[(_&tz'&Hc&->)|[(_&Hn&_&->)|(_&_&_&_&->)]]]; state_simpl;
      try congruence; intros [= <-]; by apply lru_store_full.
Qed.

Lemma resolver_caches_invariant_witness :
  (length (Optimized.get_timezone_lru
             (resolve_all (Tzdata.cpython None) (garbled_names 256)
                Optimized.startup)) ≤ 256)%nat
  ∧ NoDup (Optimized.get_timezone_lru
             (resolve_all (Tzdata.cpython None) (garbled_names 256)
                Optimized.startup)).*1
  ∧ (∀ name tz,
       Optimized._timezone_cache
         (resolve_all (Tzdata.cpython None) (garbled_names 256)
            Optimized.startup) !! name = Some tz →
       Optimized._timezone_cache
         (Optimized.get_timezone (Tzdata.cpython None) (Some "Asia/Seoul")
            (resolve_all (Tzdata.cpython None) (garbled_names 256)
               Optimized.startup)).2 !! name = Some tz)
  ∧ (∀ tz,
       lru_find (Some "Asia/Seoul")
         (Optimized.get_timezone_lru
            (resolve_all (Tzdata.cpython None) (garbled_names 256)
               Optimized.startup)) = Some tz →
       Optimized.get_timezone_lru
         (Optimized.get_timezone (Tzdata.cpython None) (Some "Asia/Seoul")
            (resolve_all (Tzdata.cpython None) (garbled_names 256)
               Optimized.startup)).2
       = (Some "Asia/Seoul", tz)
         :: lru_remove (Some "Asia/Seoul")
              (Optimized.get_timezone_lru
                 (resolve_all (Tzdata.cpython None) (garbled_names 256)
                    Optimized.startup)))
  ∧ (∀ tz,
       length (Optimized.get_timezone_lru
                 (resolve_all (Tzdata.cpython None) (garbled_names 256)
                    Optimized.startup)) = 256%nat →
       lru_find (Some "Asia/Seoul")
         (Optimized.get_timezone_lru
            (resolve_all (Tzdata.cpython None) (garbled_names 256)
               Optimized.startup)) = None →
       (Optimized.get_timezone (Tzdata.cpython None) (Some "Asia/Seoul")
          (resolve_all (Tzdata.cpython None) (garbled_names 256)
             Optimized.startup)).1 = Ok tz →
       Optimized.get_timezone_lru
         (Optimized.get_timezone (Tzdata.cpython None) (Some "Asia/Seoul")
            (resolve_all (Tzdata.cpython None) (garbled_names 256)
               Optimized.startup)).2
       = (Some "Asia/Seoul", tz)
         :: removelast
              (Optimized.get_timezone_lru
                 (resolve_all (Tzdata.cpython None) (garbled_names 256)
                    Optimized.startup))).
Proof.
  apply (resolver_caches_invariant (Tzdata.cpython None)
           (resolve_all (Tzdata.cpython None) (garbled_names 256)
              Optimized.startup) (Some "Asia/Seoul")).
  apply reachable_resolve_all. constructor.
Defined.

(** C6 as stated fails: after 257 distinct names [_timezone_cache] holds
    257 entries, and no ceiling bounds it; meanwhile the [lru_cache] has
    dropped the entry of the first name. *)
Lemma timezone_cache_has_no_ceiling :
  size (Optimized._timezone_cache
          (resolve_all (Tzdata.cpython None) (garbled_names 257)
             Optimized.startup)) = 257%nat
  ∧ lru_find (Some (garbled_name 0))
      (Optimized.get_timezone_lru
         (resolve_all (Tzdata.cpython None) (garbled_names 257)
            Optimized.startup)) = None
  ∧ ¬ (∃ ceiling : nat, ∀ calls,
         (size (Optimized._timezone_cache
                  (resolve_all (Tzdata.cpython None) calls Optimized.startup))
          ≤ ceiling)%nat).
Proof.
  split; [|split].
  - by apply resolve_all_garbled_size.
  - vm_compute. reflexivity.
  - intros [ceiling Hbound].
    specialize (Hbound (garbled_names (S ceiling))).
    rewrite resolve_all_garbled_size in Hbound; [lia | done].
Qed.

(** ** The conversion record *)

Lemma Qdiff_self_div (q d : Q) : ((q - q) / d == 0)%Q.
Proof. unfold Qdiv. rewrite (Qplus_opp_r q). apply Qmult_0_l. Qed.

Section Conversion.
Variable P : platform.

Lemma astimezone_same dt : astimezone P dt (dt_tzinfo dt) = dt.
Proof. unfold astimezone. by rewrite decide_True. Qed.

(** [astimezone] keeps the instant. *)
Lemma astimezone_instant dt tz :
  fromutc_coherent P → utc_instant P (astimezone P dt tz) = utc_instant P dt.
Proof.
  intros Hco. unfold astimezone. case_decide; [done | apply Hco].
Qed.

(** The two timestamps of a conversion are equal, so their difference
    is zero whatever the zones are. *)
Lemma time_difference_seconds_zero src_tz tgt_tz time today r :
  fromutc_coherent P →
  Optimized.convert_time_try P src_tz tgt_tz time today
  = Ok (Optimized.Converted r) →
  (Optimized.time_difference_seconds r == 0)%Q.
Proof.
  intros Hco. unfold Optimized.convert_time_try.
  destruct (fromisoformat P time) as [t|e]; [|done].
  intros [= <-]. cbn [Optimized.time_difference_seconds].
  unfold dt_timestamp.
  rewrite astimezone_instant by done. apply Qplus_opp_r.
Qed.

(** With offsets that are both non-zero the field is their difference
    in hours. *)
Lemma utc_offset_diff_hours_nonzero src_tz tgt_tz time today r src_off tgt_off :
  Optimized.convert_time_try P src_tz tgt_tz time today
  = Ok (Optimized.Converted r) →
  (∀ t, fromisoformat P time = Ok t →
     dt_utcoffset P (replace_tzinfo (combine today t) src_tz) = Some src_off
     ∧ dt_utcoffset P
         (astimezone P (replace_tzinfo (combine today t) src_tz) tgt_tz)
       = Some tgt_off) →
  src_off ≠ 0 → tgt_off ≠ 0 →
  Optimized.utc_offset_diff_hours r
  = Some ((total_seconds tgt_off - total_seconds src_off) / 3600)%Q.
Proof.
  unfold Optimized.convert_time_try.
  destruct (fromisoformat P time) as [t|e]; [|done].
  intros [= <-] Hoff Hs Ht. destruct (Hoff t eq_refl) as [E1 E2].
  clear Hoff. unfold dt_utcoffset in E1, E2.
  injection E1 as E1. injection E2 as E2.
  simpl in *. rewrite E1, E2. unfold timedelta_bool.
  by rewrite !(proj2 (Z.eqb_neq _ _)).
Qed.

(** Converting into the source zone itself: [astimezone] returns the
    source datetime, so both sides of the record coincide and the
    timestamps differ by zero; the offset difference is 0, unless the
    zone's offset is [timedelta(0)], when it is [None]. *)
Lemma convert_time_try_same_zone tz time today r :
  Optimized.convert_time_try P tz tz time today = Ok (Optimized.Converted r) →
  Optimized.source_time r = Optimized.target_time r
  ∧ Optimized.source_timezone r = Optimized.target_timezone r
  ∧ Optimized.dst_source r = Optimized.dst_target r
  ∧ (Optimized.time_difference_seconds r == 0)%Q
  ∧ (∀ t, fromisoformat P time = Ok t →
       match dt_utcoffset P (replace_tzinfo (combine today t) tz) with
       | Some off =>
           if off =? 0 then Optimized.utc_offset_diff_hours r = None
           else ∃ q, Optimized.utc_offset_diff_hours r = Some q ∧ (q == 0)%Q
       | None => Optimized.utc_offset_diff_hours r = None
       end).
Proof.
  unfold Optimized.convert_time_try.
  destruct (fromisoformat P time) as [t|e]; [|done].
  pose proof (astimezone_same (replace_tzinfo (combine today t) tz)) as Ea.
  cbn [dt_tzinfo replace_tzinfo] in Ea.
  intros [= <-]. rewrite !Ea. simpl.
  split; [done|]. split; [done|]. split; [done|].
  split; [apply Qplus_opp_r|].
  intros t' [= <-]. unfold timedelta_bool.
  destruct (_ =? 0) eqn:Hz; simpl; [done|].
  eexists. split; [reflexivity|]. apply Qdiff_self_div.
Qed.
End Conversion.

(** ** Coherence of the reference platform *)

Lemma zoneinfo_fromutc_instant z u :
  z = Tzdata.utc_zone ∨ z = Tzdata.seoul_zone ∨ z = Tzdata.new_york_zone →
  let off := (Tzdata.offset_at z u).1 in
  let wall := u + off in
  let repeated :=
    ((Tzdata.offset_at z
        (wall - (Tzdata.std_offset z + Tzdata.dst_saving z))).1
     =? Tzdata.std_offset z + Tzdata.dst_saving z)
    && ((Tzdata.offset_at z (wall - Tzdata.std_offset z)).1
        =? Tzdata.std_offset z) in
  wall - (Tzdata.offset_local z wall
            (repeated && (off =? Tzdata.std_offset z)
             && negb (Tzdata.dst_saving z =? 0))).1 = u.
Proof.
  intros [-> | [-> | ->]]; unfold Tzdata.offset_local, Tzdata.offset_at;
    cbn [Tzdata.std_offset Tzdata.dst_saving Tzdata.dst_in_force
         Tzdata.utc_zone Tzdata.seoul_zone Tzdata.new_york_zone];
    unfold Tzdata.hour_usec, usec_per_second.
  - simpl. lia.
  - simpl. lia.
  - repeat (split_comparison; cbn [fst snd andb negb] in *; try lia).
Qed.

Lemma zone_of_cases key :
  Tzdata.zone_of key = Tzdata.utc_zone
  ∨ Tzdata.zone_of key = Tzdata.seoul_zone
  ∨ Tzdata.zone_of key = Tzdata.new_york_zone.
Proof.
  unfold Tzdata.zone_of, Tzdata.rules. repeat case_decide; auto.
Qed.

(** On the reference platform a datetime built by [fromutc] denotes the
    instant it was built from, across both transitions of 2026. *)
Lemma cpython_fromutc_coherent TZ : fromutc_coherent (Tzdata.cpython TZ).
Proof.
  intros [key | name localized] u; unfold utc_instant; simpl.
  - apply zoneinfo_fromutc_instant, zone_of_cases.
  - lia.
Qed.

(** So every conversion on the reference platform reports a time
    difference of zero seconds. *)
Lemma time_difference_seconds_zero_cpython TZ src_tz tgt_tz time today r :
  Optimized.convert_time_try (Tzdata.cpython TZ) src_tz tgt_tz time today
  = Ok (Optimized.Converted r) →
  (Optimized.time_difference_seconds r == 0)%Q.
Proof.
  apply time_difference_seconds_zero, cpython_fromutc_coherent.
Qed.

(** ** The fields of a conversion at concrete inputs (C3, C4, C7) *)

(** C3 (the code departs from it).  For "09:00" from Asia/Seoul to
    America/New_York on 2026-11-04, [utc_offset_diff_hours] is -14 and
    [time_difference_seconds] is 0, not -14 × 3600: the field subtracts
    the timestamps of two datetimes that denote the same instant. *)
Theorem time_difference_seconds_seoul_new_york :
  ∃ r q,
    (Optimized.convert_time (Tzdata.cpython None) "Asia/Seoul" "09:00"
       "America/New_York" Tzdata.day_2026_11_04 Optimized.startup).1
    = Ok (Optimized.Converted r)
    ∧ Optimized.utc_offset_diff_hours r = Some q
    ∧ (q == -14)%Q
    ∧ (Optimized.time_difference_seconds r == 0)%Q
    ∧ ¬ (Optimized.time_difference_seconds r == q * 3600)%Q.
Proof.
  eexists. eexists. split; [vm_compute; reflexivity|].
  split; [reflexivity|]. repeat split.
  intros E. vm_compute in E. discriminate E.
Qed.

(** C4 (the code departs from it).  For "12:00" from UTC to UTC the
    record has equal source and target times and a zero time difference,
    but [utc_offset_diff_hours] is [None], not 0; from Asia/Seoul to
    Asia/Seoul it is 0. *)
Theorem same_zone_conversion_UTC :
  (∃ r, (Optimized.convert_time (Tzdata.cpython None) "UTC" "12:00" "UTC"
           Tzdata.day_2026_11_04 Optimized.startup).1
        = Ok (Optimized.Converted r)
        ∧ Optimized.source_time r = "2026-11-04T12:00:00+00:00"
        ∧ Optimized.target_time r = "2026-11-04T12:00:00+00:00"
        ∧ (Optimized.time_difference_seconds r == 0)%Q
        ∧ Optimized.utc_offset_diff_hours r = None)
  ∧ (∃ r, Original.convert_time (Tzdata.cpython None) "UTC" "12:00" "UTC"
            Tzdata.day_2026_11_04 = Ok r
          ∧ Original.utc_offset_diff_hours r = None)
  ∧ (∃ r q, (Optimized.convert_time (Tzdata.cpython None) "Asia/Seoul" "12:00"
               "Asia/Seoul" Tzdata.day_2026_11_04 Optimized.startup).1
            = Ok (Optimized.Converted r)
            ∧ Optimized.source_time r = Optimized.target_time r
            ∧ Optimized.utc_offset_diff_hours r = Some q ∧ (q == 0)%Q).
Proof.
  split; [|split].
  - eexists. split; [vm_compute; reflexivity|]. repeat split.
  - eexists. split; [vm_compute; reflexivity|]. reflexivity.
  - eexists. eexists. split; [vm_compute; reflexivity|]. repeat split.
Qed.

(** C7 (the code departs from it).  For "09:00" from UTC to Asia/Seoul
    the target offset minus the source offset is nine hours, yet
    [utc_offset_diff_hours] is [None] in both variants.  With two
    non-zero offsets the field is the difference: from Asia/Seoul to
    America/New_York it is -14 on 2026-11-04 and -13 on 2026-07-01. *)
Theorem utc_offset_diff_hours_from_UTC :
  (∃ r, (Optimized.convert_time (Tzdata.cpython None) "UTC" "09:00"
           "Asia/Seoul" Tzdata.day_2026_11_04 Optimized.startup).1
        = Ok (Optimized.Converted r)
        ∧ Optimized.source_time r = "2026-11-04T09:00:00+00:00"
        ∧ Optimized.target_time r = "2026-11-04T18:00:00+09:00"
        ∧ Optimized.utc_offset_diff_hours r = None)
  ∧ (∃ r, Original.convert_time (Tzdata.cpython None) "UTC" "09:00"
            "Asia/Seoul" Tzdata.day_2026_11_04 = Ok r
          ∧ Original.source_time r = "2026-11-04T09:00:00+00:00"
          ∧ Original.target_time r = "2026-11-04T18:00:00+09:00"
          ∧ Original.utc_offset_diff_hours r = None)
  ∧ (∃ r q, (Optimized.convert_time (Tzdata.cpython None) "Asia/Seoul" "09:00"
               "America/New_York" Tzdata.day_2026_11_04 Optimized.startup).1
            = Ok (Optimized.Converted r)
            ∧ Optimized.utc_offset_diff_hours r = Some q ∧ (q == -14)%Q)
  ∧ (∃ r q, (Optimized.convert_time (Tzdata.cpython None) "Asia/Seoul" "09:00"
               "America/New_York" Tzdata.day_2026_07_01 Optimized.startup).1
            = Ok (Optimized.Converted r)
            ∧ Optimized.utc_offset_diff_hours r = Some q ∧ (q == -13)%Q).
Proof.
  split; [|split; [|split]].
  - eexists. split; [vm_compute; reflexivity|]. repeat split.
  - eexists. split; [vm_compute; reflexivity|]. repeat split.
  - eexists. eexists. split; [vm_compute; reflexivity|]. repeat split.
  - eexists. eexists. split; [vm_compute; reflexivity|]. repeat split.
Qed.

(** * Further properties of the two variants *)

(** ** Where the variants agree and where they part *)

Lemma str_or_effective (local : string) (k : option string) :
  effective_name local (Some (str_or k local)) = str_or k local.
Proof.
  unfold effective_name. destruct k as [[|c s]|]; simpl; by destruct local.
Qed.

Lemma tz_str_resolved P name :
  tz_str (resolved P name)
  = if zoneinfo_available P name then name else "UTC".
Proof. unfold resolved. by destruct (zoneinfo_available P name). Qed.

(** A name zoneinfo knows is answered with its own handle, also on a
    platform without UTC. *)
Lemma get_timezone_available P k st :
  Optimized.reachable P st →
  zoneinfo_available P (effective_name (Optimized.LOCAL_TZ_NAME P) k) = true →
  (Optimized.get_timezone P k st).1
  = Ok (ZoneInfoObj (effective_name (Optimized.LOCAL_TZ_NAME P) k)).
Proof.
  intros Hreach Havail.
  destruct (reachable_invariant P st Hreach) as (Hagree & Hsound & _).
  assert (resolved P (effective_name (Optimized.LOCAL_TZ_NAME P) k)
          = ZoneInfoObj (effective_name (Optimized.LOCAL_TZ_NAME P) k)) as Hres
    by (unfold resolved; by rewrite Havail).
  destruct (get_timezone_cases P k st)
    as [(tz&Hf&->)|[(_&tz&Hc&->)|[(_&Hn&_&->)|(_&_&Hz&_&_)]]]; state_simpl.
  - apply Hagree, Hsound in Hf. congruence.
  - apply Hsound in Hc. congruence.
  - by rewrite Hres.
  - congruence.
Qed.

(** X1.  For a timezone name that zoneinfo knows (or an absent name and a
    default that zoneinfo knows), [get_current_time] of the optimized
    variant returns the record of the original variant, with the
    [timestamp] field added. *)
Theorem get_current_time_variants_agree (P : platform)
    (st : Optimized.process) (timezone : option string) (now_utc : Z) :
  Optimized.reachable P st →
  zoneinfo_available P (str_or timezone (Optimized.LOCAL_TZ_NAME P)) = true →
  ∃ r, (Optimized.get_current_time P timezone now_utc st).1 = Ok r
       ∧ Optimized.timezone r
         = Original.timezone (Original.get_current_time P timezone now_utc)
       ∧ Optimized.iso8601 r
         = Original.iso8601 (Original.get_current_time P timezone now_utc)
       ∧ Optimized.dst r
         = Original.dst (Original.get_current_time P timezone now_utc)
       ∧ Optimized.utc_offset_hours r
         = Original.utc_offset_hours
             (Original.get_current_time P timezone now_utc).
Proof.
  intros Hreach Havail.
  pose proof (get_timezone_available P
                (Some (str_or timezone (Optimized.LOCAL_TZ_NAME P))) st Hreach)
    as Hcall.
  rewrite str_or_effective in Hcall. specialize (Hcall Havail).
  unfold Optimized.get_current_time, Optimized.bind, Optimized.ret.
  destruct (Optimized.get_timezone P _ st) as [res st'].
  simpl in Hcall; subst res.
  eexists. split; [reflexivity|].
  assert (Original.local_timezone P
          = ZoneInfoObj (Optimized.LOCAL_TZ_NAME P)
          ∨ zoneinfo_available P (Optimized.LOCAL_TZ_NAME P) = false) as Hloc.
  { unfold Original.local_timezone, Original.get_local_timezone, ZoneInfo.
    fold (Optimized.LOCAL_TZ_NAME P).
    destruct (zoneinfo_available P (Optimized.LOCAL_TZ_NAME P)); auto. }
  unfold Original.get_current_time.
  destruct timezone as [[|c s]|]; simpl in *.
  - destruct Hloc as [-> | E]; [done | congruence].
  - unfold ZoneInfo. rewrite Havail. done.
  - destruct Hloc as [-> | E]; [done | congruence].
Qed.

Lemma get_current_time_variants_agree_witness :
  ∃ r, (Optimized.get_current_time (Tzdata.cpython None)
          (Some "America/New_York") 1793512800000000 Optimized.startup).1
       = Ok r
       ∧ Optimized.timezone r
         = Original.timezone
             (Original.get_current_time (Tzdata.cpython None)
                (Some "America/New_York") 1793512800000000)
       ∧ Optimized.iso8601 r
         = Original.iso8601
             (Original.get_current_time (Tzdata.cpython None)
                (Some "America/New_York") 1793512800000000)
       ∧ Optimized.dst r
         = Original.dst
             (Original.get_current_time (Tzdata.cpython None)
                (Some "America/New_York") 1793512800000000)
       ∧ Optimized.utc_offset_hours r
         = Original.utc_offset_hours
             (Original.get_current_time (Tzdata.cpython None)
                (Some "America/New_York") 1793512800000000).
Proof.
  apply (get_current_time_variants_agree (Tzdata.cpython None)
           Optimized.startup (Some "America/New_York") 1793512800000000).
  - constructor.
  - reflexivity.
Defined.

(** X2.  For source and target names that zoneinfo knows, [convert_time]
    of the optimized variant returns the record of the original variant
    (with [time_difference_seconds] added) when the original returns, and
    its error record exactly when the original raises, which is then the
    [ValueError] of the time parser. *)
Theorem convert_time_variants_agree (P : platform) (st : Optimized.process)
    (source time target : string) (today : date) :
  Optimized.reachable P st →
  source ≠ "" → target ≠ "" →
  zoneinfo_available P source = true →
  zoneinfo_available P target = true →
  match Original.convert_time P source time target today with
  | Ok o =>
      ∃ r, (Optimized.convert_time P source time target today st).1
           = Ok (Optimized.Converted r)
           ∧ Optimized.source_time r = Original.source_time o
           ∧ Optimized.source_timezone r = Original.source_timezone o
           ∧ Optimized.target_time r = Original.target_time o
           ∧ Optimized.target_timezone r = Original.target_timezone o
           ∧ Optimized.dst_source r = Original.dst_source o
           ∧ Optimized.dst_target r = Original.dst_target o
           ∧ Optimized.utc_offset_diff_hours r
             = Original.utc_offset_diff_hours o
  | Raise e =>
      ∃ msg, e = ValueError msg
             ∧ (Optimized.convert_time P source time target today st).1
               = Ok (Optimized.Invalid
                       {| Optimized.error :=
                            "Invalid time format: " +:+ time
                            +:+ ". Expected HH:MM format.";
                          Optimized.details := msg |})
  end.
Proof.
  intros Hreach Hs Ht Has Hat.
  assert (∀ n, n ≠ "" →
            effective_name (Optimized.LOCAL_TZ_NAME P) (Some n) = n) as Heff
    by (intros [|c n] Hn; done).
  pose proof (get_timezone_available P (Some source) st Hreach) as H1.
  rewrite (Heff source Hs) in H1. specialize (H1 Has).
  pose proof (get_timezone_available P (Some target)
                (Optimized.get_timezone P (Some source) st).2
                (Optimized.reachable_call P st (Some source) Hreach)) as H2.
  rewrite (Heff target Ht) in H2. specialize (H2 Hat).
  unfold Optimized.convert_time, Optimized.bind.
  destruct (Optimized.get_timezone P (Some source) st) as [r1 st1].
  simpl in H1, H2; subst r1.
  destruct (Optimized.get_timezone P (Some target) st1) as [r2 st2].
  simpl in H2; subst r2.
  unfold Original.convert_time, Original.lookup_timezone, ZoneInfo.
  rewrite Has, Hat.
  unfold Optimized.convert_time_try, fromisoformat.
  destruct (time_fromisoformat P time) as [msg|t]; simpl.
  - by exists msg.
  - eexists. split; [reflexivity|]. repeat split.
Qed.

Lemma convert_time_variants_agree_witness :
  ∃ r, (Optimized.convert_time (Tzdata.cpython None) "America/New_York"
          "02:30" "Asia/Seoul" Tzdata.day_2026_03_08 Optimized.startup).1
       = Ok (Optimized.Converted r)
       ∧ Optimized.source_time r = "2026-03-08T02:30:00-05:00"
       ∧ Optimized.source_timezone r = "America/New_York"
       ∧ Optimized.target_time r = "2026-03-08T16:30:00+09:00"
       ∧ Optimized.target_timezone r = "Asia/Seoul"
       ∧ Optimized.dst_source r = false
       ∧ Optimized.dst_target r = false
       ∧ Optimized.utc_offset_diff_hours r
         = Some (50400000000000000 # 3600000000000000).
Proof.
  apply (convert_time_variants_agree (Tzdata.cpython None) Optimized.startup
           "America/New_York" "02:30" "Asia/Seoul" Tzdata.day_2026_03_08).
  - constructor.
  - discriminate.
  - discriminate.
  - reflexivity.
  - reflexivity.
Defined.

(** X3.  A name that only pytz knows is where the variants part: the
    original [get_current_time] answers for the pytz zone, under its
    canonical name, while the optimized variant, which no longer consults
    pytz, answers for UTC. *)
Theorem pytz_only_name_diverges (P : platform) (st : Optimized.process)
    (name zone : string) (now_utc : Z) :
  zoneinfo_available P "UTC" = true →
  Optimized.reachable P st →
  name ≠ "" →
  zoneinfo_available P name = false →
  pytz_lookup P name = Some zone →
  Original.timezone (Original.get_current_time P (Some name) now_utc) = zone
  ∧ ∃ r, (Optimized.get_current_time P (Some name) now_utc st).1 = Ok r
         ∧ Optimized.timezone r = "UTC".
Proof.
  intros Hutc Hreach Hne Hname Hpytz. split.
  - unfold Original.get_current_time; simpl.
    destruct name as [|c name]; [done|].
    unfold ZoneInfo, pytz_timezone. by rewrite Hname, Hpytz.
  - unfold Optimized.get_current_time, Optimized.bind, Optimized.ret.
    assert (str_or (Some name) (Optimized.LOCAL_TZ_NAME P) = name) as ->
      by (by destruct name).
    destruct (get_timezone_returns P (Some name) st Hutc) as [tz Htz].
    pose proof (get_timezone_resolved P (Some name) st tz Hreach Htz) as E.
    assert (effective_name (Optimized.LOCAL_TZ_NAME P) (Some name) = name)
      as Heff by (by destruct name).
    rewrite Heff in E. unfold resolved in E. rewrite Hname in E. subst tz.
    destruct (Optimized.get_timezone P (Some name) st) as [res st'].
    simpl in Htz; subst res.
    eexists. split; reflexivity.
Qed.

Lemma pytz_only_name_diverges_witness :
  Original.timezone
    (Original.get_current_time (Tzdata.cpython None) (Some "asia/seoul") 0)
  = "Asia/Seoul"
  ∧ ∃ r, (Optimized.get_current_time (Tzdata.cpython None)
            (Some "asia/seoul") 0 Optimized.startup).1 = Ok r
         ∧ Optimized.timezone r = "UTC".
Proof.
  apply (pytz_only_name_diverges (Tzdata.cpython None) Optimized.startup
           "asia/seoul" "Asia/Seoul" 0).
  - reflexivity.
  - constructor.
  - discriminate.
  - reflexivity.
  - reflexivity.
Defined.

(** ** The numeric fields of [get_current_time] *)



(** ** What [convert_time] does to the caches and how it labels zones *)

Lemma get_timezone_size P k st :
  (size (Optimized._timezone_cache (Optimized.get_timezone P k st).2)
   ≤ size (Optimized._timezone_cache st) + 1)%nat.
Proof.
  destruct (get_timezone_cases P k st)
    as [(tz&Hf&->)|[(_&tz&Hc&->)|[(_&Hn&_&->)|(_&_&_&_&->)]]]; state_simpl;
    try lia.
  rewrite map_size_insert_None by done. lia.
Qed.

(** X5.  On a platform that can load UTC, [convert_time] leaves the
    process in the state its two lookups produce, whether the time string
    parses or not: the state is reachable again, [_timezone_cache] has
    gained exactly the effective names of source and target, and at most
    two entries. *)
Theorem convert_time_caches_both_names (P : platform)
    (st : Optimized.process) (source time target : string) (today : date) :
  zoneinfo_available P "UTC" = true →
  Optimized.reachable P st →
  Optimized.reachable P
    (Optimized.convert_time P source time target today st).2
  ∧ dom (Optimized._timezone_cache
           (Optimized.convert_time P source time target today st).2)
    = {[effective_name (Optimized.LOCAL_TZ_NAME P) (Some target)]}
      ∪ ({[effective_name (Optimized.LOCAL_TZ_NAME P) (Some source)]}
         ∪ dom (Optimized._timezone_cache st))
  ∧ (size (Optimized._timezone_cache
             (Optimized.convert_time P source time target today st).2)
     ≤ size (Optimized._timezone_cache st) + 2)%nat.
Proof.
  intros Hutc Hreach.
  destruct (convert_time_unfold P source time target today st Hutc)
    as (src_tz & st1 & tgt_tz & st2 & H1 & H2 & ->).
  cbn [snd].
  assert (st1 = (Optimized.get_timezone P (Some source) st).2) as E1
    by (by rewrite H1).
  assert (st2 = (Optimized.get_timezone P (Some target) st1).2) as E2
    by (by rewrite H2).
  assert (Optimized.reachable P st1) as Hr1 by (subst st1; by constructor).
  split; [subst st2; by constructor|]. split.
  - rewrite E2, (get_timezone_dom P Hutc)
      by (by apply reachable_invariant).
    rewrite E1, (get_timezone_dom P Hutc)
      by (by apply reachable_invariant).
    done.
  - pose proof (get_timezone_size P (Some source) st).
    pose proof (get_timezone_size P (Some target) st1).
    rewrite <- E1 in *. rewrite <- E2 in *. lia.
Qed.

Lemma convert_time_caches_both_names_witness :
  Optimized.reachable (Tzdata.cpython None)
    (Optimized.convert_time (Tzdata.cpython None) "Mars/Phobos" "noon"
       "Asia/Seoul" Tzdata.day_2026_11_04 Optimized.startup).2
  ∧ dom (Optimized._timezone_cache
           (Optimized.convert_time (Tzdata.cpython None) "Mars/Phobos" "noon"
              "Asia/Seoul" Tzdata.day_2026_11_04 Optimized.startup).2)
    = {[effective_name (Optimized.LOCAL_TZ_NAME (Tzdata.cpython None))
          (Some "Asia/Seoul")]}
      ∪ ({[effective_name (Optimized.LOCAL_TZ_NAME (Tzdata.cpython None))
             (Some "Mars/Phobos")]}
         ∪ dom (Optimized._timezone_cache Optimized.startup))
  ∧ (size (Optimized._timezone_cache
             (Optimized.convert_time (Tzdata.cpython None) "Mars/Phobos"
                "noon" "Asia/Seoul" Tzdata.day_2026_11_04
                Optimized.startup).2)
     ≤ size (Optimized._timezone_cache Optimized.startup) + 2)%nat.
Proof.
  apply (convert_time_caches_both_names (Tzdata.cpython None)
           Optimized.startup "Mars/Phobos" "noon" "Asia/Seoul"
           Tzdata.day_2026_11_04).
  - reflexivity.
  - constructor.
Defined.

(** X6.  On a platform that can load UTC, a conversion labels each zone
    with the given name when zoneinfo knows it and with "UTC" when it does
    not: an unknown name is never echoed back as a zone. *)
Theorem convert_time_zone_labels (P : platform) (st : Optimized.process)
    (t : time) (source time target : string) (today : date) :
  zoneinfo_available P "UTC" = true →
  Optimized.reachable P st →
  source ≠ "" → target ≠ "" →
  time_fromisoformat P time = inr t →
  ∃ r, (Optimized.convert_time P source time target today st).1
       = Ok (Optimized.Converted r)
       ∧ Optimized.source_timezone r
         = (if zoneinfo_available P source then source else "UTC")
       ∧ Optimized.target_timezone r
         = (if zoneinfo_available P target then target else "UTC").
Proof.
  intros Hutc Hreach Hs Ht Hparse.
  assert (∀ n, n ≠ "" →
            effective_name (Optimized.LOCAL_TZ_NAME P) (Some n) = n) as Heff
    by (intros [|c n] Hn; done).
  destruct (convert_time_unfold P source time target today st Hutc)
    as (src_tz & st1 & tgt_tz & st2 & H1 & H2 & ->).
  assert (Optimized.reachable P st1) as Hr1.
  { replace st1 with (Optimized.get_timezone P (Some source) st).2
      by (by rewrite H1). by constructor. }
  assert (src_tz = resolved P source) as ->.
  { rewrite <- (Heff source Hs).
    apply (get_timezone_resolved P (Some source) st); [done | by rewrite H1]. }
  assert (tgt_tz = resolved P target) as ->.
  { rewrite <- (Heff target Ht).
    apply (get_timezone_resolved P (Some target) st1); [done | by rewrite H2]. }
  unfold Optimized.convert_time_try, fromisoformat. rewrite Hparse.
  eexists. split; [reflexivity|].
  cbn [Optimized.source_timezone Optimized.target_timezone].
  by rewrite !tz_str_resolved.
Qed.

Lemma convert_time_zone_labels_witness :
  ∃ r, (Optimized.convert_time (Tzdata.cpython None) "Mars/Phobos" "09:00"
          "Asia/Seoul" Tzdata.day_2026_11_04 Optimized.startup).1
       = Ok (Optimized.Converted r)
       ∧ Optimized.source_timezone r = "UTC"
       ∧ Optimized.target_timezone r = "Asia/Seoul".
Proof.
  apply (convert_time_zone_labels (Tzdata.cpython None) Optimized.startup
           (mk_time 9 0 0 0) "Mars/Phobos" "09:00" "Asia/Seoul"
           Tzdata.day_2026_11_04).
  - reflexivity.
  - constructor.
  - discriminate.
  - discriminate.
  - reflexivity.
Defined.

(** X7.  When [convert_time] has resolved its zones and parsed its time,
    and the UTC offsets of the source datetime and of the converted
    datetime are both different from [timedelta(0)], the call succeeds
    and [utc_offset_diff_hours] is the target offset minus the source
    offset, in hours, in both variants. *)
Theorem nonzero_offsets_give_difference (P : platform)
    (src_tz tgt_tz : tzinfo) (t : time) (time : string) (today : date)
    (src_off tgt_off : timedelta) :
  time_fromisoformat P time = inr t →
  dt_utcoffset P (replace_tzinfo (combine today t) src_tz) = Some src_off →
  dt_utcoffset P
    (astimezone P (replace_tzinfo (combine today t) src_tz) tgt_tz)
  = Some tgt_off →
  src_off ≠ 0 → tgt_off ≠ 0 →
  (∀ source target st st1 st2,
     Optimized.get_timezone P (Some source) st = (Ok src_tz, st1) →
     Optimized.get_timezone P (Some target) st1 = (Ok tgt_tz, st2) →
     ∃ r, Optimized.convert_time P source time target today st
          = (Ok (Optimized.Converted r), st2)
          ∧ Optimized.utc_offset_diff_hours r
            = Some ((total_seconds tgt_off - total_seconds src_off) / 3600)%Q)
  ∧ (∀ source target,
       Original.lookup_timezone P source = Ok src_tz →
       Original.lookup_timezone P target = Ok tgt_tz →
       ∃ r, Original.convert_time P source time target today = Ok r
            ∧ Original.utc_offset_diff_hours r
              = Some ((total_seconds tgt_off - total_seconds src_off)
                      / 3600)%Q).
Proof.
  intros Hparse Hsrc Htgt Hs Ht.
  assert (timedelta_bool tgt_off && timedelta_bool src_off = true) as Hguard.
  { unfold timedelta_bool. by rewrite !(proj2 (Z.eqb_neq _ _)). }
  split.
  - intros source target st st1 st2 H1 H2.
    unfold Optimized.convert_time, Optimized.bind. rewrite H1, H2.
    unfold Optimized.convert_time_try, fromisoformat. rewrite Hparse.
    eexists. split; [reflexivity|].
    cbn [Optimized.utc_offset_diff_hours]. by rewrite Hsrc, Htgt, Hguard.
  - intros source target H1 H2.
    unfold Original.convert_time, fromisoformat. rewrite H1, H2, Hparse.
    eexists. split; [reflexivity|].
    cbn [Original.utc_offset_diff_hours]. by rewrite Hsrc, Htgt, Hguard.
Qed.

Lemma nonzero_offsets_give_difference_witness :
  (∃ r, Optimized.convert_time (Tzdata.cpython None) "Asia/Seoul" "09:00"
          "America/New_York" Tzdata.day_2026_07_01 Optimized.startup
        = (Ok (Optimized.Converted r),
           (Optimized.get_timezone (Tzdata.cpython None)
              (Some "America/New_York")
              (Optimized.get_timezone (Tzdata.cpython None)
                 (Some "Asia/Seoul") Optimized.startup).2).2)
        ∧ Optimized.utc_offset_diff_hours r
          = Some ((total_seconds (-14400000000)%Z
                   - total_seconds 32400000000%Z) / 3600)%Q)
  ∧ (∃ r, Original.convert_time (Tzdata.cpython None) "Asia/Seoul" "09:00"
            "America/New_York" Tzdata.day_2026_07_01 = Ok r
          ∧ Original.utc_offset_diff_hours r
            = Some ((total_seconds (-14400000000)%Z
                     - total_seconds 32400000000%Z) / 3600)%Q).
Proof.
  destruct (nonzero_offsets_give_difference (Tzdata.cpython None)
              (ZoneInfoObj "Asia/Seoul") (ZoneInfoObj "America/New_York")
              (mk_time 9 0 0 0) "09:00" Tzdata.day_2026_07_01
              32400000000 (-14400000000)) as [Hopt Horig].
  - reflexivity.
  - reflexivity.
  - reflexivity.
  - discriminate.
  - discriminate.
  - split.
    + apply (Hopt "Asia/Seoul" "America/New_York" Optimized.startup
               (Optimized.get_timezone (Tzdata.cpython None)
                  (Some "Asia/Seoul") Optimized.startup).2); reflexivity.
    + apply (Horig "Asia/Seoul" "America/New_York"); reflexivity.
Defined.

(** ** [get_timezone_metadata] *)

Section MetadataFacts.
Variable P : platform.

Lemma metadata_reachable_invariant st :
  Metadata.reachable P st →
  Optimized.reachable P (Metadata.timezones st)
  ∧ metadata_sound P st
  ∧ (length (Metadata.get_timezone_metadata_lru st) ≤ 128)%nat
  ∧ NoDup (Metadata.get_timezone_metadata_lru st).*1.
Proof.
  induction 1 as [|st k _ (Hr & Hs & Hl & Hn)|st n _ (Hr & Hs & Hl & Hn)].
  - repeat split.
    + constructor.
    + intros k m; simpl; done.
    + simpl; lia.
    + simpl; constructor.
  - unfold Metadata.get_timezone.
    pose proof (Optimized.reachable_call P _ k Hr) as Hr'.
    destruct (Optimized.get_timezone P k (Metadata.timezones st)) as [r tzs].
    simpl in *. auto.
  - unfold Metadata.get_timezone_metadata.
    destruct (lru_find n (Metadata.get_timezone_metadata_lru st))
      as [m|] eqn:Hf; cbn [snd Metadata.timezones
                              Metadata.get_timezone_metadata_lru].
    + split; [done|]. split; [|split].
      * intros k m'. cbn [Metadata.get_timezone_metadata_lru].
        rewrite lru_find_touch. case_decide as Hk.
        -- intros [= <-]. subst k. by apply Hs.
        -- apply Hs.
      * etrans; [by eapply length_lru_touch | done].
      * by apply NoDup_lru_touch.
    + unfold Metadata.get_timezone_metadata_wrapped.
      pose proof (Optimized.reachable_call P _ (Some n) Hr) as Hr'.
      pose proof (λ tz, get_timezone_resolved P (Some n) _ tz Hr) as Hres.
      destruct (Optimized.get_timezone P (Some n) (Metadata.timezones st))
        as [[tz|e] tzs]; cbn [fst snd Metadata.timezones
                                Metadata.get_timezone_metadata_lru] in *.
      * split; [done|]. split; [|split].
        -- intros k m' Hk. cbn [Metadata.get_timezone_metadata_lru] in Hk.
           apply lru_find_store in Hk as [[-> ->]|[_ Hk]]; [|by apply Hs].
           unfold metadata_expected. by rewrite <- (Hres tz eq_refl).
        -- apply length_lru_store; [lia | done].
        -- by apply NoDup_lru_store.
      * auto.
Qed.

End MetadataFacts.

(** X8.  In a reachable state of a platform that can load UTC,
    [get_timezone_metadata] returns a dict whose [key] is the name as
    given, whose [name] is the effective name when zoneinfo knows it and
    "UTC" when it does not, and whose [is_dst_capable] is true for every
    zone, UTC included. *)
Theorem get_timezone_metadata_contents (P : platform) (st : Metadata.process)
    (tz_name : string) :
  zoneinfo_available P "UTC" = true →
  Metadata.reachable P st →
  ∃ m, (Metadata.get_timezone_metadata P tz_name st).1 = Ok m
       ∧ Metadata.key m = tz_name
       ∧ Metadata.name m
         = (if zoneinfo_available P
                 (effective_name (Optimized.LOCAL_TZ_NAME P) (Some tz_name))
            then effective_name (Optimized.LOCAL_TZ_NAME P) (Some tz_name)
            else "UTC")
       ∧ Metadata.is_dst_capable m = true.
Proof.
  intros Hutc Hreach.
  destruct (metadata_reachable_invariant P st Hreach) as (Hr & Hs & _).
  exists (metadata_expected P tz_name). split.
  - unfold Metadata.get_timezone_metadata.
    destruct (lru_find tz_name (Metadata.get_timezone_metadata_lru st))
      as [m|] eqn:Hf.
    + apply Hs in Hf. by subst m.
    + unfold Metadata.get_timezone_metadata_wrapped.
      destruct (get_timezone_returns P (Some tz_name) (Metadata.timezones st)
                  Hutc) as [tz Htz].
      pose proof (get_timezone_resolved P (Some tz_name) _ tz Hr Htz) as Hres.
      destruct (Optimized.get_timezone P (Some tz_name) (Metadata.timezones st))
        as [r tzs]. simpl in Htz; subst r. simpl.
      unfold metadata_expected. by rewrite <- Hres.
  - unfold metadata_expected; simpl. by rewrite tz_str_resolved.
Qed.

Lemma get_timezone_metadata_contents_witness :
  ∃ m, (Metadata.get_timezone_metadata (Tzdata.cpython None) "Mars/Phobos"
          (Metadata.get_timezone_metadata (Tzdata.cpython None) "UTC"
             Metadata.startup).2).1 = Ok m
       ∧ Metadata.key m = "Mars/Phobos"
       ∧ Metadata.name m = "UTC"
       ∧ Metadata.is_dst_capable m = true.
Proof.
  apply (get_timezone_metadata_contents (Tzdata.cpython None)
           (Metadata.get_timezone_metadata (Tzdata.cpython None) "UTC"
              Metadata.startup).2 "Mars/Phobos").
  - reflexivity.
  - apply Metadata.reachable_metadata. constructor.
Defined.

(** X9.  In every reachable state the [lru_cache] of
    [get_timezone_metadata] holds at most 128 entries, at most one per
    name, and the timezone caches underneath are in a state [get_timezone]
    alone could have produced; a name found in the [lru_cache] is answered
    from it without calling [get_timezone], so the timezone caches stay as
    they are. *)
Theorem get_timezone_metadata_cache (P : platform) (st : Metadata.process)
    (tz_name : string) :
  Metadata.reachable P st →
  (length (Metadata.get_timezone_metadata_lru st) ≤ 128)%nat
  ∧ NoDup (Metadata.get_timezone_metadata_lru st).*1
  ∧ Optimized.reachable P (Metadata.timezones st)
  ∧ (is_Some (lru_find tz_name (Metadata.get_timezone_metadata_lru st)) →
     Metadata.timezones (Metadata.get_timezone_metadata P tz_name st).2
     = Metadata.timezones st)
  ∧ (lru_find tz_name (Metadata.get_timezone_metadata_lru st) = None →
     Metadata.timezones (Metadata.get_timezone_metadata P tz_name st).2
     = (Optimized.get_timezone P (Some tz_name) (Metadata.timezones st)).2).
Proof.
  intros Hreach.
  destruct (metadata_reachable_invariant P st Hreach) as (Hr & _ & Hl & Hn).
  split; [done|]. split; [done|]. split; [done|]. split.
  - intros [m Hm]. unfold Metadata.get_timezone_metadata. by rewrite Hm.
  - intros Hm. unfold Metadata.get_timezone_metadata. rewrite Hm.
    unfold Metadata.get_timezone_metadata_wrapped.
    by destruct (Optimized.get_timezone P (Some tz_name) (Metadata.timezones st))
      as [[tz|e] tzs].
Qed.

Lemma get_timezone_metadata_cache_witness :
  (length (Metadata.get_timezone_metadata_lru
             (Metadata.get_timezone_metadata (Tzdata.cpython None)
                "Asia/Seoul" Metadata.startup).2) ≤ 128)%nat
  ∧ NoDup (Metadata.get_timezone_metadata_lru
             (Metadata.get_timezone_metadata (Tzdata.cpython None)
                "Asia/Seoul" Metadata.startup).2).*1
  ∧ Optimized.reachable (Tzdata.cpython None)
      (Metadata.timezones
         (Metadata.get_timezone_metadata (Tzdata.cpython None)
            "Asia/Seoul" Metadata.startup).2)
  ∧ (is_Some (lru_find "Asia/Seoul"
                (Metadata.get_timezone_metadata_lru
                   (Metadata.get_timezone_metadata (Tzdata.cpython None)
                      "Asia/Seoul" Metadata.startup).2)) →
     Metadata.timezones
       (Metadata.get_timezone_metadata (Tzdata.cpython None) "Asia/Seoul"
          (Metadata.get_timezone_metadata (Tzdata.cpython None)
             "Asia/Seoul" Metadata.startup).2).2
     = Metadata.timezones
         (Metadata.get_timezone_metadata (Tzdata.cpython None)
            "Asia/Seoul" Metadata.startup).2)
  ∧ (lru_find "Asia/Seoul"
       (Metadata.get_timezone_metadata_lru
          (Metadata.get_timezone_metadata (Tzdata.cpython None)
             "Asia/Seoul" Metadata.startup).2) = None →
     Metadata.timezones
       (Metadata.get_timezone_metadata (Tzdata.cpython None) "Asia/Seoul"
          (Metadata.get_timezone_metadata (Tzdata.cpython None)
             "Asia/Seoul" Metadata.startup).2).2
     = (Optimized.get_timezone (Tzdata.cpython None) (Some "Asia/Seoul")
          (Metadata.timezones
             (Metadata.get_timezone_metadata (Tzdata.cpython None)
                "Asia/Seoul" Metadata.startup).2)).2).
Proof.
  apply (get_timezone_metadata_cache (Tzdata.cpython None)
           (Metadata.get_timezone_metadata (Tzdata.cpython None)
              "Asia/Seoul" Metadata.startup).2 "Asia/Seoul").
  apply Metadata.reachable_metadata. constructor.
Defined.

(** ** Lazy initialization *)

Section BootstrapCore.
Variable R : Bootstrap.runtime.

Lemma startup_well_initialized : Bootstrap.well_initialized Bootstrap.startup.
Proof.
  unfold Bootstrap.well_initialized; simpl.
  split; [|split]; intros Hs; by apply is_Some_None in Hs.
Qed.

(** A successful [get_handler] leaves a warm process. *)
Lemma get_handler_warms g h :
  Bootstrap.well_initialized g →
  (Bootstrap.get_handler R g).1 = Ok h →
  Bootstrap.warm (Bootstrap.get_handler R g).2 h.
Proof.
  destruct g as [f m s a h0 eff].
  unfold Bootstrap.well_initialized, Bootstrap.warm.
  intros (H1 & H2 & H3). boot_cases; intros; repeat split; boot_close.
Qed.

Lemma warm_get_handler g h :
  Bootstrap.warm g h → Bootstrap.get_handler R g = (Ok h, g).
Proof.
  intros (Hh & _). unfold Bootstrap.get_handler. by rewrite Hh.
Qed.

End BootstrapCore.

Section BootstrapFacts.
Context {event context response : Type}.
Variable R : Bootstrap.runtime.
Variable invoke :
  list Bootstrap.effect → Bootstrap.handler → event → context → result response.

Abbreviation after := (Bootstrap.after R invoke).
Abbreviation after_all := (Bootstrap.after_all R invoke).

(** No entry point clears or replaces a global that is set, and the log
    of external calls only grows. *)
Lemma after_kept (c : Bootstrap.call) g :
  Bootstrap.well_initialized g →
  Bootstrap.kept (Bootstrap._fastmcp_modules g)
    (Bootstrap._fastmcp_modules (after c g))
  ∧ Bootstrap.kept (Bootstrap._mangum_module g)
      (Bootstrap._mangum_module (after c g))
  ∧ Bootstrap.kept (Bootstrap._server g) (Bootstrap._server (after c g))
  ∧ Bootstrap.kept (Bootstrap._app g) (Bootstrap._app (after c g))
  ∧ Bootstrap.kept (Bootstrap._handler g) (Bootstrap._handler (after c g))
  ∧ Bootstrap.effects g `prefix_of` Bootstrap.effects (after c g).
Proof.
  destruct g as [f m s a h eff].
  unfold Bootstrap.kept, Bootstrap.well_initialized.
  intros (H1 & H2 & H3).
  destruct c; boot_cases; repeat split; try solve_prefix; boot_close.
Qed.

Lemma after_well_initialized (c : Bootstrap.call) g :
  Bootstrap.well_initialized g → Bootstrap.well_initialized (after c g).
Proof.
  destruct g as [f m s a h eff]. unfold Bootstrap.well_initialized.
  intros (H1 & H2 & H3).
  destruct c; boot_cases; repeat split; boot_close.
Qed.

Lemma after_all_well_initialized calls g :
  Bootstrap.well_initialized g → Bootstrap.well_initialized (after_all calls g).
Proof.
  revert g. induction calls as [|c calls IH]; intros g Hg; simpl; [done|].
  by apply IH, after_well_initialized.
Qed.

(** In a warm process no entry point imports or constructs anything: only
    [lambda_handler] adds to the log, and what it adds is its invocation
    of the handler. *)
Lemma warm_after (c : Bootstrap.call) g h :
  Bootstrap.warm g h →
  Bootstrap.warm (after c g) h
  ∧ Bootstrap._app (after c g) = Bootstrap._app g
  ∧ Bootstrap.effects (after c g)
    = Bootstrap.effects g
      ++ (if Bootstrap.is_invocation c then [Bootstrap.Invoke] else []).
Proof.
  destruct g as [f m s a h0 eff]. unfold Bootstrap.warm.
  intros (H1 & [s' H2] & [m' H3] & [f' H4]). simpl in *. subst.
  destruct c; boot_cases; rewrite ?app_nil_r; repeat split; boot_close.
Qed.

Lemma warm_after_all calls g h :
  Bootstrap.warm g h →
  Bootstrap.warm (after_all calls g) h
  ∧ Bootstrap._app (after_all calls g) = Bootstrap._app g
  ∧ Bootstrap.effects (after_all calls g)
    = Bootstrap.effects g
      ++ replicate (length (filter (λ c, Bootstrap.is_invocation c = true) calls))
           Bootstrap.Invoke.
Proof.
  revert g. induction calls as [|c calls IH]; intros g Hw; simpl.
  - by rewrite app_nil_r.
  - destruct (warm_after c g h Hw) as (Hw' & Ha & He).
    destruct (IH _ Hw') as (Hw'' & Ha' & He').
    split; [done|]. split; [congruence|].
    rewrite He', He, filter_cons. destruct c; simpl;
      rewrite ?app_nil_r; try done.
    by rewrite <- (assoc_L (++)).
Qed.

End BootstrapFacts.

(** X10.  In every state reached from startup through the accessors and
    [lambda_handler], whatever the external packages do: [_server] is set
    only if [_fastmcp_modules] is, [_app] only if [_server] is, and
    [_handler] only if [_server] and [_mangum_module] are; and a further
    call neither clears nor replaces a global that is set, and only adds
    to the log of external calls. *)
Theorem globals_initialized_in_order {event context response : Type}
    (R : Bootstrap.runtime)
    (invoke : list Bootstrap.effect → Bootstrap.handler → event → context
              → result response)
    (calls : list Bootstrap.call) (c : Bootstrap.call) :
  Bootstrap.well_initialized (Bootstrap.after_all R invoke calls Bootstrap.startup)
  ∧ Bootstrap.kept
      (Bootstrap._fastmcp_modules
         (Bootstrap.after_all R invoke calls Bootstrap.startup))
      (Bootstrap._fastmcp_modules
         (Bootstrap.after R invoke c
            (Bootstrap.after_all R invoke calls Bootstrap.startup)))
  ∧ Bootstrap.kept
      (Bootstrap._mangum_module
         (Bootstrap.after_all R invoke calls Bootstrap.startup))
      (Bootstrap._mangum_module
         (Bootstrap.after R invoke c
            (Bootstrap.after_all R invoke calls Bootstrap.startup)))
  ∧ Bootstrap.kept
      (Bootstrap._server
         (Bootstrap.after_all R invoke calls Bootstrap.startup))
      (Bootstrap._server
         (Bootstrap.after R invoke c
            (Bootstrap.after_all R invoke calls Bootstrap.startup)))
  ∧ Bootstrap.kept
      (Bootstrap._app (Bootstrap.after_all R invoke calls Bootstrap.startup))
      (Bootstrap._app
         (Bootstrap.after R invoke c
            (Bootstrap.after_all R invoke calls Bootstrap.startup)))
  ∧ Bootstrap.kept
      (Bootstrap._handler
         (Bootstrap.after_all R invoke calls Bootstrap.startup))
      (Bootstrap._handler
         (Bootstrap.after R invoke c
            (Bootstrap.after_all R invoke calls Bootstrap.startup)))
  ∧ Bootstrap.effects (Bootstrap.after_all R invoke calls Bootstrap.startup)
    `prefix_of`
    Bootstrap.effects
      (Bootstrap.after R invoke c
         (Bootstrap.after_all R invoke calls Bootstrap.startup)).
Proof.
  assert (Bootstrap.well_initialized
            (Bootstrap.after_all R invoke calls Bootstrap.startup)) as Hwi
    by apply after_all_well_initialized, startup_well_initialized.
  split; [done|]. by apply after_kept.
Qed.

(** X11.  Once [get_handler] has returned a handler, the process is
    initialized for good: after any further calls of the accessors and of
    [lambda_handler], [get_handler] returns that handler again, and
    nothing was imported or constructed in between; the log of external
    calls has grown by one handler invocation per [lambda_handler] call
    and by nothing else. *)
Theorem handler_initialized_once {event context response : Type}
    (R : Bootstrap.runtime)
    (invoke : list Bootstrap.effect → Bootstrap.handler → event → context
              → result response)
    (before later : list Bootstrap.call) (h : Bootstrap.handler) :
  (Bootstrap.get_handler R
     (Bootstrap.after_all R invoke before Bootstrap.startup)).1 = Ok h →
  Bootstrap.get_handler R
    (Bootstrap.after_all R invoke later
       (Bootstrap.get_handler R
          (Bootstrap.after_all R invoke before Bootstrap.startup)).2)
  = (Ok h,
     Bootstrap.after_all R invoke later
       (Bootstrap.get_handler R
          (Bootstrap.after_all R invoke before Bootstrap.startup)).2)
  ∧ Bootstrap.effects
      (Bootstrap.after_all R invoke later
         (Bootstrap.get_handler R
            (Bootstrap.after_all R invoke before Bootstrap.startup)).2)
    = Bootstrap.effects
        (Bootstrap.get_handler R
           (Bootstrap.after_all R invoke before Bootstrap.startup)).2
      ++ replicate
           (length (filter (λ c, Bootstrap.is_invocation c = true) later))
           Bootstrap.Invoke.
Proof.
  intros Hok.
  assert (Bootstrap.warm
            (Bootstrap.get_handler R
               (Bootstrap.after_all R invoke before Bootstrap.startup)).2 h)
    as Hwarm.
  { apply get_handler_warms; [|done].
    apply after_all_well_initialized, startup_well_initialized. }
  destruct (warm_after_all R invoke later _ h Hwarm) as (Hw & _ & He).
  split; [by apply warm_get_handler | done].
Qed.

Lemma handler_initialized_once_witness :
  Bootstrap.get_handler Bootstrap.healthy
    (Bootstrap.after_all Bootstrap.healthy
       (λ _ _ (ev : string) (_ : unit), Ok ev)
       [Bootstrap.LambdaHandler "ping" tt; Bootstrap.GetServer;
        Bootstrap.LambdaHandler "pong" tt; Bootstrap.GetApp]
       (Bootstrap.get_handler Bootstrap.healthy
          (Bootstrap.after_all Bootstrap.healthy
             (λ _ _ (ev : string) (_ : unit), Ok ev)
             [Bootstrap.GetApp] Bootstrap.startup)).2)
  = (Ok {| Bootstrap.handler_app := Some (Bootstrap.AppOf Bootstrap.new_server);
           Bootstrap.lifespan := "off" |},
     Bootstrap.after_all Bootstrap.healthy
       (λ _ _ (ev : string) (_ : unit), Ok ev)
       [Bootstrap.LambdaHandler "ping" tt; Bootstrap.GetServer;
        Bootstrap.LambdaHandler "pong" tt; Bootstrap.GetApp]
       (Bootstrap.get_handler Bootstrap.healthy
          (Bootstrap.after_all Bootstrap.healthy
             (λ _ _ (ev : string) (_ : unit), Ok ev)
             [Bootstrap.GetApp] Bootstrap.startup)).2)
  ∧ Bootstrap.effects
      (Bootstrap.after_all Bootstrap.healthy
         (λ _ _ (ev : string) (_ : unit), Ok ev)
         [Bootstrap.LambdaHandler "ping" tt; Bootstrap.GetServer;
          Bootstrap.LambdaHandler "pong" tt; Bootstrap.GetApp]
         (Bootstrap.get_handler Bootstrap.healthy
            (Bootstrap.after_all Bootstrap.healthy
               (λ _ _ (ev : string) (_ : unit), Ok ev)
               [Bootstrap.GetApp] Bootstrap.startup)).2)
    = Bootstrap.effects
        (Bootstrap.get_handler Bootstrap.healthy
           (Bootstrap.after_all Bootstrap.healthy
              (λ _ _ (ev : string) (_ : unit), Ok ev)
              [Bootstrap.GetApp] Bootstrap.startup)).2
      ++ replicate
           (length
              (filter (λ c, Bootstrap.is_invocation c = true)
                 [Bootstrap.LambdaHandler "ping" tt; Bootstrap.GetServer;
                  Bootstrap.LambdaHandler "pong" tt; Bootstrap.GetApp]))
           Bootstrap.Invoke.
Proof.
  apply (handler_initialized_once Bootstrap.healthy
           (λ _ _ (ev : string) (_ : unit), Ok ev)
           [Bootstrap.GetApp]
           [Bootstrap.LambdaHandler "ping" tt; Bootstrap.GetServer;
            Bootstrap.LambdaHandler "pong" tt; Bootstrap.GetApp]).
  reflexivity.
Defined.

(** X12.  A cold start in which every import and constructor succeeds:
    [get_handler] imports Mangum before fastmcp, defines the tools before
    it constructs the server, reads [server.app] and wraps it, each step
    exactly once, and leaves all five globals set. *)
Theorem cold_start_order (R : Bootstrap.runtime) (a : Bootstrap.app) :
  (∀ hist, Bootstrap.import_fastmcp R hist = None) →
  (∀ hist, Bootstrap.import_mangum R hist = None) →
  (∀ hist, Bootstrap.decorate_tools R hist = None) →
  (∀ hist s, Bootstrap.MCPServer_init R hist s = None) →
  (∀ hist, Bootstrap.server_app R hist Bootstrap.new_server = Ok a) →
  (∀ hist h, Bootstrap.Mangum_init R hist h = None) →
  Bootstrap.get_handler R Bootstrap.startup
  = (Ok {| Bootstrap.handler_app := Some a; Bootstrap.lifespan := "off" |},
     {| Bootstrap._fastmcp_modules := Some Bootstrap.FastmcpModules;
        Bootstrap._mangum_module := Some Bootstrap.MangumClass;
        Bootstrap._server := Some Bootstrap.new_server;
        Bootstrap._app := Some a;
        Bootstrap._handler :=
          Some {| Bootstrap.handler_app := Some a;
                  Bootstrap.lifespan := "off" |};
        Bootstrap.effects :=
          [Bootstrap.ImportMangum; Bootstrap.ImportFastmcp;
           Bootstrap.DefineTools; Bootstrap.ConstructServer;
           Bootstrap.ReadApp; Bootstrap.ConstructHandler] |}).
Proof.
  intros Hf Hm Hd Hs Ha Hh. boot_unfold. simpl.
  rewrite Hm. simpl. rewrite Hf. simpl. rewrite Hd. simpl.
  rewrite Hs. simpl. rewrite Ha. simpl. rewrite Hh. reflexivity.
Qed.

Lemma cold_start_order_witness :
  Bootstrap.get_handler Bootstrap.healthy Bootstrap.startup
  = (Ok {| Bootstrap.handler_app := Some (Bootstrap.AppOf Bootstrap.new_server);
           Bootstrap.lifespan := "off" |},
     {| Bootstrap._fastmcp_modules := Some Bootstrap.FastmcpModules;
        Bootstrap._mangum_module := Some Bootstrap.MangumClass;
        Bootstrap._server := Some Bootstrap.new_server;
        Bootstrap._app := Some (Bootstrap.AppOf Bootstrap.new_server);
        Bootstrap._handler :=
          Some {| Bootstrap.handler_app :=
                    Some (Bootstrap.AppOf Bootstrap.new_server);
                  Bootstrap.lifespan := "off" |};
        Bootstrap.effects :=
          [Bootstrap.ImportMangum; Bootstrap.ImportFastmcp;
           Bootstrap.DefineTools; Bootstrap.ConstructServer;
           Bootstrap.ReadApp; Bootstrap.ConstructHandler] |}).
Proof.
  apply (cold_start_order Bootstrap.healthy
           (Bootstrap.AppOf Bootstrap.new_server)); intros; reflexivity.
Defined.

(** X13.  [get_server] stores the server before it reads [server.app].
    If that read raises, the first [get_app] raises too, but the server
    stays stored; every later [get_app] then skips the initialization and
    returns [None], without any external call, and [get_handler] wraps
    that [None]. *)
Theorem get_app_after_failed_read (R : Bootstrap.runtime) (e : exn) :
  (∀ hist, Bootstrap.import_fastmcp R hist = None) →
  (∀ hist, Bootstrap.import_mangum R hist = None) →
  (∀ hist, Bootstrap.decorate_tools R hist = None) →
  (∀ hist s, Bootstrap.MCPServer_init R hist s = None) →
  (∀ hist, Bootstrap.server_app R hist Bootstrap.new_server = Raise e) →
  (∀ hist h, Bootstrap.Mangum_init R hist h = None) →
  (Bootstrap.get_app R Bootstrap.startup).1 = Raise e
  ∧ Bootstrap._server (Bootstrap.get_app R Bootstrap.startup).2
    = Some Bootstrap.new_server
  ∧ Bootstrap._app (Bootstrap.get_app R Bootstrap.startup).2 = None
  ∧ Bootstrap.get_app R (Bootstrap.get_app R Bootstrap.startup).2
    = (Ok None, (Bootstrap.get_app R Bootstrap.startup).2)
  ∧ (Bootstrap.get_handler R (Bootstrap.get_app R Bootstrap.startup).2).1
    = Ok {| Bootstrap.handler_app := None; Bootstrap.lifespan := "off" |}.
Proof.
  intros Hf Hm Hd Hs Ha Hh.
  assert (Bootstrap.get_app R Bootstrap.startup
          = (Raise e,
             {| Bootstrap._fastmcp_modules := Some Bootstrap.FastmcpModules;
                Bootstrap._mangum_module := None;
                Bootstrap._server := Some Bootstrap.new_server;
                Bootstrap._app := None;
                Bootstrap._handler := None;
                Bootstrap.effects :=
                  [Bootstrap.ImportFastmcp; Bootstrap.DefineTools;
                   Bootstrap.ConstructServer; Bootstrap.ReadApp] |})) as E.
  { boot_unfold. simpl. rewrite Hf. simpl. rewrite Hd. simpl.
    rewrite Hs. simpl. rewrite Ha. reflexivity. }
  rewrite E. simpl. repeat split.
  boot_unfold. simpl. rewrite Hm. simpl. rewrite Hh. reflexivity.
Qed.

Lemma get_app_after_failed_read_witness :
  (Bootstrap.get_app (Bootstrap.app_raises (ValueError "no app"))
     Bootstrap.startup).1 = Raise (ValueError "no app")
  ∧ Bootstrap._server
      (Bootstrap.get_app (Bootstrap.app_raises (ValueError "no app"))
         Bootstrap.startup).2
    = Some Bootstrap.new_server
  ∧ Bootstrap._app
      (Bootstrap.get_app (Bootstrap.app_raises (ValueError "no app"))
         Bootstrap.startup).2 = None
  ∧ Bootstrap.get_app (Bootstrap.app_raises (ValueError "no app"))
      (Bootstrap.get_app (Bootstrap.app_raises (ValueError "no app"))
         Bootstrap.startup).2
    = (Ok None,
       (Bootstrap.get_app (Bootstrap.app_raises (ValueError "no app"))
          Bootstrap.startup).2)
  ∧ (Bootstrap.get_handler (Bootstrap.app_raises (ValueError "no app"))
       (Bootstrap.get_app (Bootstrap.app_raises (ValueError "no app"))
          Bootstrap.startup).2).1
    = Ok {| Bootstrap.handler_app := None; Bootstrap.lifespan := "off" |}.
Proof.
  apply (get_app_after_failed_read
           (Bootstrap.app_raises (ValueError "no app"))
           (ValueError "no app")); intros; reflexivity.
Defined.

Section FailedConstruction.
Context {event context response : Type}.
Variable R : Bootstrap.runtime.
Variable invoke :
  list Bootstrap.effect → Bootstrap.handler → event → context → result response.
Variable e : exn.
Hypothesis Himport : ∀ hist, Bootstrap.import_fastmcp R hist = None.
Hypothesis Htools : ∀ hist, Bootstrap.decorate_tools R hist = None.
Hypothesis Hinit :
  ∀ hist, Bootstrap.MCPServer_init R hist Bootstrap.new_server = Some e.

(** With fastmcp loaded and no server yet, [get_server] defines the tools,
    fails in the constructor and stores nothing. *)
Lemma get_server_fails m a h eff :
  Bootstrap.get_server R
    {| Bootstrap._fastmcp_modules := Some Bootstrap.FastmcpModules;
       Bootstrap._mangum_module := m; Bootstrap._server := None;
       Bootstrap._app := a; Bootstrap._handler := h;
       Bootstrap.effects := eff |}
  = (Raise e,
     {| Bootstrap._fastmcp_modules := Some Bootstrap.FastmcpModules;
        Bootstrap._mangum_module := m; Bootstrap._server := None;
        Bootstrap._app := a; Bootstrap._handler := h;
        Bootstrap.effects :=
          eff ++ [Bootstrap.DefineTools; Bootstrap.ConstructServer] |}).
Proof.
  boot_unfold. simpl. rewrite Htools. simpl. rewrite Hinit.
  by rewrite <- (assoc_L (++)).
Qed.

Lemma get_server_retries n m a h eff :
  Bootstrap.after_all R invoke (replicate n Bootstrap.GetServer)
    {| Bootstrap._fastmcp_modules := Some Bootstrap.FastmcpModules;
       Bootstrap._mangum_module := m; Bootstrap._server := None;
       Bootstrap._app := a; Bootstrap._handler := h;
       Bootstrap.effects := eff |}
  = {| Bootstrap._fastmcp_modules := Some Bootstrap.FastmcpModules;
       Bootstrap._mangum_module := m; Bootstrap._server := None;
       Bootstrap._app := a; Bootstrap._handler := h;
       Bootstrap.effects :=
         eff ++ concat (replicate n
                          [Bootstrap.DefineTools; Bootstrap.ConstructServer]) |}.
Proof.
  revert eff. induction n as [|n IH]; intros eff; simpl.
  - by rewrite app_nil_r.
  - rewrite get_server_fails. simpl. rewrite IH.
    by rewrite <- (assoc_L (++)).
Qed.

Lemma get_server_first_failure :
  Bootstrap.get_server R Bootstrap.startup
  = (Raise e,
     {| Bootstrap._fastmcp_modules := Some Bootstrap.FastmcpModules;
        Bootstrap._mangum_module := None; Bootstrap._server := None;
        Bootstrap._app := None; Bootstrap._handler := None;
        Bootstrap.effects :=
          [Bootstrap.ImportFastmcp; Bootstrap.DefineTools;
           Bootstrap.ConstructServer] |}).
Proof.
  boot_unfold. simpl. rewrite Himport. simpl. rewrite Htools. simpl.
  by rewrite Hinit.
Qed.

End FailedConstruction.

(** X14.  [get_server] defines the tools before it constructs the server
    and stores the server only afterwards.  While the constructor keeps
    raising, every call of [get_server] raises, [_server] stays unset,
    fastmcp is imported once, and the tools are defined again on every
    attempt. *)
Theorem failed_construction_redefines_tools
    {event context response : Type} (R : Bootstrap.runtime)
    (invoke : list Bootstrap.effect → Bootstrap.handler → event → context
              → result response)
    (e : exn) (n : nat) :
  (∀ hist, Bootstrap.import_fastmcp R hist = None) →
  (∀ hist, Bootstrap.decorate_tools R hist = None) →
  (∀ hist, Bootstrap.MCPServer_init R hist Bootstrap.new_server = Some e) →
  Bootstrap._server
    (Bootstrap.after_all R invoke (replicate (S n) Bootstrap.GetServer)
       Bootstrap.startup) = None
  ∧ Bootstrap._fastmcp_modules
      (Bootstrap.after_all R invoke (replicate (S n) Bootstrap.GetServer)
         Bootstrap.startup) = Some Bootstrap.FastmcpModules
  ∧ Bootstrap.effects
      (Bootstrap.after_all R invoke (replicate (S n) Bootstrap.GetServer)
         Bootstrap.startup)
    = Bootstrap.ImportFastmcp
      :: concat (replicate (S n)
                   [Bootstrap.DefineTools; Bootstrap.ConstructServer])
  ∧ (Bootstrap.get_server R
       (Bootstrap.after_all R invoke (replicate (S n) Bootstrap.GetServer)
          Bootstrap.startup)).1 = Raise e.
Proof.
  intros Himport Htools Hinit. simpl.
  rewrite (get_server_first_failure R e Himport Htools Hinit). simpl.
  rewrite (get_server_retries R invoke e Htools Hinit). simpl.
  repeat split.
  by rewrite (get_server_fails R e Htools Hinit).
Qed.

Lemma failed_construction_redefines_tools_witness :
  Bootstrap._server
    (Bootstrap.after_all
       (Bootstrap.constructor_raises (ValueError "bad title"))
       (λ _ _ (ev : string) (_ : unit), Ok ev)
       (replicate 3 Bootstrap.GetServer) Bootstrap.startup) = None
  ∧ Bootstrap._fastmcp_modules
      (Bootstrap.after_all
         (Bootstrap.constructor_raises (ValueError "bad title"))
         (λ _ _ (ev : string) (_ : unit), Ok ev)
         (replicate 3 Bootstrap.GetServer) Bootstrap.startup)
    = Some Bootstrap.FastmcpModules
  ∧ Bootstrap.effects
      (Bootstrap.after_all
         (Bootstrap.constructor_raises (ValueError "bad title"))
         (λ _ _ (ev : string) (_ : unit), Ok ev)
         (replicate 3 Bootstrap.GetServer) Bootstrap.startup)
    = Bootstrap.ImportFastmcp
      :: concat (replicate 3
                   [Bootstrap.DefineTools; Bootstrap.ConstructServer])
  ∧ (Bootstrap.get_server
       (Bootstrap.constructor_raises (ValueError "bad title"))
       (Bootstrap.after_all
          (Bootstrap.constructor_raises (ValueError "bad title"))
          (λ _ _ (ev : string) (_ : unit), Ok ev)
          (replicate 3 Bootstrap.GetServer) Bootstrap.startup)).1
    = Raise (ValueError "bad title").
Proof.
  apply (failed_construction_redefines_tools
           (Bootstrap.constructor_raises (ValueError "bad title"))
           (λ _ _ (ev : string) (_ : unit), Ok ev)
           (ValueError "bad title") 2); intros; reflexivity.
Defined.

(** ** The lazy import of [zoneinfo] *)

Section LazyZoneinfoFacts.
Variable P : platform.
Variable import_zoneinfo : nat → option exn.

(** One call of [get_timezone] with the import spelled out, against the
    call of [Optimized.get_timezone] on the caches: they agree unless the
    import is attempted and fails. *)
Lemma lazy_get_timezone_step k st :
  (is_Some (LazyZoneinfo._zoneinfo_module st)
   ∨ import_zoneinfo (LazyZoneinfo.imports st) = None) →
  (LazyZoneinfo.get_timezone P import_zoneinfo k st).1
  = (Optimized.get_timezone P k (LazyZoneinfo.caches st)).1
  ∧ LazyZoneinfo.caches (LazyZoneinfo.get_timezone P import_zoneinfo k st).2
    = (Optimized.get_timezone P k (LazyZoneinfo.caches st)).2
  ∧ (is_Some (LazyZoneinfo._zoneinfo_module st) →
     LazyZoneinfo._zoneinfo_module
       (LazyZoneinfo.get_timezone P import_zoneinfo k st).2
     = LazyZoneinfo._zoneinfo_module st
     ∧ LazyZoneinfo.imports (LazyZoneinfo.get_timezone P import_zoneinfo k st).2
       = LazyZoneinfo.imports st)
  ∧ (LazyZoneinfo._zoneinfo_module st = None →
     (LazyZoneinfo._zoneinfo_module
        (LazyZoneinfo.get_timezone P import_zoneinfo k st).2 = None
      ∧ LazyZoneinfo.imports
          (LazyZoneinfo.get_timezone P import_zoneinfo k st).2
        = LazyZoneinfo.imports st)
     ∨ (is_Some (LazyZoneinfo._zoneinfo_module
                   (LazyZoneinfo.get_timezone P import_zoneinfo k st).2)
        ∧ LazyZoneinfo.imports
            (LazyZoneinfo.get_timezone P import_zoneinfo k st).2
          = S (LazyZoneinfo.imports st))).
Proof.
  destruct st as [m [lru cache] n]. simpl. intros Himp.
  unfold LazyZoneinfo.get_timezone, Optimized.get_timezone,
    LazyZoneinfo.get_timezone_wrapped, Optimized.get_timezone_wrapped,
    LazyZoneinfo.get_zoneinfo. simpl.
  destruct (lru_find k lru) as [tz|]; simpl; [lazy_close|].
  destruct (cache !! str_or k (Optimized.LOCAL_TZ_NAME P)) as [tz|]; simpl;
    [destruct cache; lazy_close|].
  destruct m as [m|]; simpl.
  - destruct (ZoneInfo P (str_or k (Optimized.LOCAL_TZ_NAME P))) as [tz|e];
      simpl; [lazy_close|].
    destruct (ZoneInfo P "UTC") as [tz|e']; simpl; lazy_close.
  - destruct Himp as [[? [=]] | ->]. simpl.
    destruct (ZoneInfo P (str_or k (Optimized.LOCAL_TZ_NAME P))) as [tz|e];
      simpl; [lazy_close|].
    destruct (ZoneInfo P "UTC") as [tz|e']; simpl; lazy_close.
Qed.

End LazyZoneinfoFacts.

(** X15.  While [import zoneinfo] succeeds, [get_timezone] with its lazy
    import answers as [Optimized.get_timezone] does and leaves the caches
    in the same state, after any sequence of earlier calls; the module is
    imported at most once in the life of the process, and is loaded
    exactly when it has been. *)
Theorem lazy_import_refines (P : platform) (import_zoneinfo : nat → option exn)
    (calls : list (option string)) (k : option string) :
  (∀ n, import_zoneinfo n = None) →
  LazyZoneinfo.caches
    (LazyZoneinfo.after_all P import_zoneinfo calls LazyZoneinfo.startup)
  = resolve_all P calls Optimized.startup
  ∧ (LazyZoneinfo.get_timezone P import_zoneinfo k
       (LazyZoneinfo.after_all P import_zoneinfo calls LazyZoneinfo.startup)).1
    = (Optimized.get_timezone P k (resolve_all P calls Optimized.startup)).1
  ∧ (LazyZoneinfo.imports
       (LazyZoneinfo.after_all P import_zoneinfo calls LazyZoneinfo.startup)
     ≤ 1)%nat
  ∧ (is_Some (LazyZoneinfo._zoneinfo_module
                (LazyZoneinfo.after_all P import_zoneinfo calls
                   LazyZoneinfo.startup))
     ↔ LazyZoneinfo.imports
         (LazyZoneinfo.after_all P import_zoneinfo calls LazyZoneinfo.startup)
       = 1%nat).
Proof.
  intros Himport.
  assert (∀ calls st0 st,
            LazyZoneinfo.caches st = st0 →
            (LazyZoneinfo._zoneinfo_module st = None
             ∧ LazyZoneinfo.imports st = 0%nat)
            ∨ (is_Some (LazyZoneinfo._zoneinfo_module st)
               ∧ LazyZoneinfo.imports st = 1%nat) →
            LazyZoneinfo.caches (LazyZoneinfo.after_all P import_zoneinfo calls st)
            = resolve_all P calls st0
            ∧ ((LazyZoneinfo._zoneinfo_module
                  (LazyZoneinfo.after_all P import_zoneinfo calls st) = None
                ∧ LazyZoneinfo.imports
                    (LazyZoneinfo.after_all P import_zoneinfo calls st) = 0%nat)
               ∨ (is_Some (LazyZoneinfo._zoneinfo_module
                             (LazyZoneinfo.after_all P import_zoneinfo calls st))
                  ∧ LazyZoneinfo.imports
                      (LazyZoneinfo.after_all P import_zoneinfo calls st)
                    = 1%nat))) as Hrun.
  { clear calls. induction calls as [|c calls IH]; intros st0 st Hc Hinv;
      simpl; [done|].
    destruct (lazy_get_timezone_step P import_zoneinfo c st
                (or_intror (Himport _))) as (_ & Hcaches & Hset & Hunset).
    apply IH; [by rewrite Hcaches, Hc|].
    destruct Hinv as [[Hm Hn] | [Hm Hn]].
    - destruct (Hunset Hm) as [[Hm' Hn'] | [Hm' Hn']].
      + left. split; [done | congruence].
      + right. split; [done | lia].
    - destruct (Hset Hm) as [Hm' Hn']. right. split; congruence. }
  destruct (Hrun calls Optimized.startup LazyZoneinfo.startup eq_refl
              (or_introl (conj eq_refl eq_refl))) as (Hc & Hinv).
  split; [done|]. split; [|split].
  - destruct (lazy_get_timezone_step P import_zoneinfo k
                (LazyZoneinfo.after_all P import_zoneinfo calls
                   LazyZoneinfo.startup)
                (or_intror (Himport _))) as (Hres & _).
    by rewrite Hres, Hc.
  - destruct Hinv as [[_ ->] | [_ ->]]; lia.
  - destruct Hinv as [[Hm Hn] | [Hm Hn]]; split; try done.
    + rewrite Hm. by intros [? [=]].
    + rewrite Hn. discriminate.
Qed.

Lemma lazy_import_refines_witness :
  LazyZoneinfo.caches
    (LazyZoneinfo.after_all (Tzdata.cpython None) (λ _, None)
       [Some "Asia/Seoul"; None; Some "Mars/Phobos"] LazyZoneinfo.startup)
  = resolve_all (Tzdata.cpython None)
      [Some "Asia/Seoul"; None; Some "Mars/Phobos"] Optimized.startup
  ∧ (LazyZoneinfo.get_timezone (Tzdata.cpython None) (λ _, None)
       (Some "America/New_York")
       (LazyZoneinfo.after_all (Tzdata.cpython None) (λ _, None)
          [Some "Asia/Seoul"; None; Some "Mars/Phobos"]
          LazyZoneinfo.startup)).1
    = (Optimized.get_timezone (Tzdata.cpython None) (Some "America/New_York")
         (resolve_all (Tzdata.cpython None)
            [Some "Asia/Seoul"; None; Some "Mars/Phobos"]
            Optimized.startup)).1
  ∧ (LazyZoneinfo.imports
       (LazyZoneinfo.after_all (Tzdata.cpython None) (λ _, None)
          [Some "Asia/Seoul"; None; Some "Mars/Phobos"]
          LazyZoneinfo.startup) ≤ 1)%nat
  ∧ (is_Some (LazyZoneinfo._zoneinfo_module
                (LazyZoneinfo.after_all (Tzdata.cpython None) (λ _, None)
                   [Some "Asia/Seoul"; None; Some "Mars/Phobos"]
                   LazyZoneinfo.startup))
     ↔ LazyZoneinfo.imports
         (LazyZoneinfo.after_all (Tzdata.cpython None) (λ _, None)
            [Some "Asia/Seoul"; None; Some "Mars/Phobos"]
            LazyZoneinfo.startup) = 1%nat).
Proof.
  apply (lazy_import_refines (Tzdata.cpython None) (λ _, None)
           [Some "Asia/Seoul"; None; Some "Mars/Phobos"]
           (Some "America/New_York")).
  intros n. reflexivity.
Defined.

(** X16.  The import of [zoneinfo] sits outside the [try] of
    [get_timezone], so a failing import is not turned into the UTC
    fallback: a name found in neither cache makes the call raise the
    import error, nothing is cached and the module stays unloaded, so the
    next miss imports again; a name found in [_timezone_cache] is still
    answered. *)
Theorem failed_import_is_raised (P : platform)
    (import_zoneinfo : nat → option exn) (st : LazyZoneinfo.process)
    (k : option string) (e : exn) :
  LazyZoneinfo._zoneinfo_module st = None →
  import_zoneinfo (LazyZoneinfo.imports st) = Some e →
  lru_find k (Optimized.get_timezone_lru (LazyZoneinfo.caches st)) = None →
  match Optimized._timezone_cache (LazyZoneinfo.caches st)
        !! effective_name (Optimized.LOCAL_TZ_NAME P) k with
  | Some tz =>
      (LazyZoneinfo.get_timezone P import_zoneinfo k st).1 = Ok tz
      ∧ LazyZoneinfo.imports
          (LazyZoneinfo.get_timezone P import_zoneinfo k st).2
        = LazyZoneinfo.imports st
  | None =>
      LazyZoneinfo.get_timezone P import_zoneinfo k st
      = (Raise e,
         {| LazyZoneinfo._zoneinfo_module := None;
            LazyZoneinfo.caches := LazyZoneinfo.caches st;
            LazyZoneinfo.imports := S (LazyZoneinfo.imports st) |})
  end.
Proof.
  intros Hm Himp Hlru.
  unfold LazyZoneinfo.get_timezone, LazyZoneinfo.get_timezone_wrapped,
    LazyZoneinfo.get_zoneinfo, effective_name.
  rewrite Hlru, Hm, Himp.
  by destruct (Optimized._timezone_cache (LazyZoneinfo.caches st)
               !! str_or k (Optimized.LOCAL_TZ_NAME P)).
Qed.

Lemma failed_import_is_raised_witness :
  LazyZoneinfo.get_timezone (Tzdata.cpython None)
    (λ _, Some (ImportError "zoneinfo")) (Some "Asia/Seoul")
    LazyZoneinfo.startup
  = (Raise (ImportError "zoneinfo"),
     {| LazyZoneinfo._zoneinfo_module := None;
        LazyZoneinfo.caches := LazyZoneinfo.caches LazyZoneinfo.startup;
        LazyZoneinfo.imports := S (LazyZoneinfo.imports LazyZoneinfo.startup) |}).
Proof.
  apply (failed_import_is_raised (Tzdata.cpython None)
           (λ _, Some (ImportError "zoneinfo")) LazyZoneinfo.startup
           (Some "Asia/Seoul") (ImportError "zoneinfo")); reflexivity.
Defined.
